(** * Assembly of the agent's system prompt

    Shallow embedding of [src/core/prompts]: the section providers whose
    source is available ([getPlanModeResponsePrompt], [getBrowserActionPrompt],
    [getSystemInfoPrompt], [getRulesPrompt], [getMcpServersPrompt],
    [getMcpCreationPrompt]) and the composer [SYSTEM_PROMPT] of [index.ts].

    Strings are byte strings; a template literal is written as the list of
    its lines.  Calls to external collaborators (the MCP hub, the operating
    system) run in a state-and-exception monad over an abstract [World], so
    that a throw or a rejected promise aborts the rest of the evaluation in
    source order. *)

From Stdlib Require Import String Ascii List Bool NArith Arith Lia.
From Stdlib Require Import DecimalString DecimalPos DecimalN.
Import ListNotations.
Set Warnings "-register-all".
Open Scope list_scope.
Open Scope string_scope.

(** ** JavaScript strings and arrays *)

(** The line feed and the double quote, which template texts contain. *)
Definition nl : string := String "010"%char EmptyString.
Definition dq : string := String "034"%char EmptyString.

(** [Array.prototype.join] on an array of strings. *)
Definition join (l : list string) (sep : string) : string := String.concat sep l.

(** A template literal, given line by line. *)
Definition lines (l : list string) : string := join l nl.

(** [Array.prototype.splice(start, deleteCount, ...items)], the array it leaves. *)
Definition splice {A : Type} (l : list A) (start deleteCount : nat) (items : list A) : list A :=
  (firstn start l ++ items ++ skipn (start + deleteCount) l)%list.

(** [s || d] on strings: the empty string is the only falsy one. *)
Definition js_or (s d : string) : string :=
  match s with
  | EmptyString => d
  | String _ _ => s
  end.

(** A JavaScript number that is whole, not negative and below 2^53.  Such
    a number is printed with all its decimal digits; from 2^53 on a number
    is printed in its shortest round-trip form and from 10^21 on with an
    exponent, which this type leaves out, as it does fractions. *)
Record safe_integer : Type := {
  whole : N;
  whole_safe : (whole <? 2 ^ 53)%N = true
}.

(** [Number.prototype.toString] on a safe integer. *)
Definition number_to_string (n : safe_integer) : string :=
  NilZero.string_of_uint (N.to_uint (whole n)).

Fixpoint string_map (f : ascii -> ascii) (s : string) : string :=
  match s with
  | EmptyString => EmptyString
  | String c r => String (f c) (string_map f r)
  end.

Fixpoint string_forallb (p : ascii -> bool) (s : string) : bool :=
  match s with
  | EmptyString => true
  | String c r => p c && string_forallb p r
  end.

(** A decimal digit. *)
Definition is_digit (c : ascii) : bool :=
  Nat.leb 48 (nat_of_ascii c) && Nat.leb (nat_of_ascii c) 57.

Definition backslash : ascii := "\"%char.
Definition slash : ascii := "/"%char.

(** Modelled from the spec: [toPosix], the [String.prototype] extension the
    providers call on every path; its definition is not under [src/].  The
    spec asks for the canonical forward-slash form of a host-native path:
    every backslash becomes a forward slash. *)
Definition toPosix (p : string) : string :=
  string_map (fun c => if Ascii.eqb c backslash then slash else c) p.

Definition no_backslash (s : string) : bool :=
  string_forallb (fun c => negb (Ascii.eqb c backslash)) s.

(** [String.prototype.includes]. *)
Fixpoint includes (s sub : string) : bool :=
  String.prefix sub s ||
  match s with
  | EmptyString => false
  | String _ r => includes r sub
  end.

(** [sub] occurs in [s]. *)
Definition occurs_in (sub s : string) : Prop :=
  exists pre post, s = pre ++ sub ++ post.

(** ** Exceptions and effects *)

Inductive error : Type :=
| SyntaxError                 (* JSON.parse on text that is not JSON *)
| TypeError                   (* property read on null, call of a non-function, failed ToPrimitive *)
| Rejected (reason : string). (* what an external collaborator throws or rejects with *)

Inductive result (A : Type) : Type :=
| Ok (a : A)
| Err (e : error).
Arguments Ok {A} a.
Arguments Err {A} e.

Definition is_ok {A : Type} (r : result A) : bool :=
  match r with Ok _ => true | Err _ => false end.

Definition rbind {A B : Type} (r : result A) (k : A -> result B) : result B :=
  match r with
  | Ok a => k a
  | Err e => Err e
  end.

Notation "x <-? r ;; k" := (rbind r (fun x => k))
  (at level 61, r at next level, right associativity).

(** [Array.prototype.map] with a callback that may throw: elements are
    visited in order and the first exception ends the traversal. *)
Fixpoint map_result {A B : Type} (f : A -> result B) (l : list A) : result (list B) :=
  match l with
  | [] => Ok []
  | x :: r => y <-? f x ;; ys <-? map_result f r ;; Ok (y :: ys)
  end.

(** A computation that may read or change the world and may throw. *)
Definition M (World A : Type) : Type := World -> result A * World.

Definition ret {World A : Type} (a : A) : M World A := fun w => (Ok a, w).

Definition throw {World A : Type} (e : error) : M World A := fun w => (Err e, w).

(** [bind m k] runs [k] on the value of [m]; an exception of [m] skips [k]
    and keeps whatever [m] did to the world before it threw. *)

Definition bind {World A B : Type} (m : M World A) (k : A -> M World B) : M World B :=
  fun w =>
    match m w with
    | (Ok a, w') => k a w'
    | (Err e, w') => (Err e, w')
    end.

Definition lift {World A : Type} (r : result A) : M World A := fun w => (r, w).

Notation "x <- m ;; k" := (bind m (fun x => k))
  (at level 61, m at next level, right associativity).

(** ** JSON values, as [JSON.parse] returns them *)

Inductive json : Type :=
| JNull
| JBool (b : bool)
| JNumber (shown : string)      (* a number, kept as the text ToString gives it *)
| JString (s : string)
| JArray (items : list json)
| JObject (props : list (string * json)).

(** [JSON.parse] itself is the engine's; [None] stands for its SyntaxError. *)
Class JsonParser : Type := { JSON_parse : string -> option json }.

Fixpoint own_property (key : string) (props : list (string * json)) : option json :=
  match props with
  | [] => None
  | (k, v) :: r => if k =? key then Some v else own_property key r
  end.

(** [v.key] for the keys the prompt code reads ([command], [args]), which no
    prototype defines: [None] is [undefined]; reading a property of [null]
    throws. *)
Definition get_property (v : json) (key : string) : result (option json) :=
  match v with
  | JNull => Err TypeError
  | JObject props => Ok (own_property key props)
  | _ => Ok None
  end.

(** ToString of a parsed value.  An array joins its elements with a comma,
    [null] elements giving the empty string; a plain object gives
    [[object Object]] unless an own [toString] property (never callable in
    parsed JSON) shadows the inherited one, and then ToPrimitive throws. *)
Fixpoint ToString (v : json) : result string :=
  match v with
  | JNull => Ok "null"
  | JBool true => Ok "true"
  | JBool false => Ok "false"
  | JNumber shown => Ok shown
  | JString s => Ok s
  | JArray items =>
      ss <-? (fix elements (l : list json) : result (list string) :=
                match l with
                | [] => Ok []
                | x :: r =>
                    s <-? match x with JNull => Ok "" | _ => ToString x end ;;
                    ss <-? elements r ;;
                    Ok (s :: ss)
                end) items ;;
      Ok (join ss ",")
  | JObject props =>
      match own_property "toString" props with
      | Some _ => Err TypeError
      | None => Ok "[object Object]"
      end
  end.

(** [items.join(sep)] on a parsed array. *)
Definition array_join (items : list json) (sep : string) : result string :=
  ss <-? map_result (fun x => match x with JNull => Ok "" | _ => ToString x end) items ;;
  Ok (join ss sep).

(** [${v}] in a template literal, [None] being [undefined]. *)
Definition template_value (v : option json) : result string :=
  match v with
  | None => Ok "undefined"
  | Some x => ToString x
  end.

(** ** Data model

    The types of the hub, of its servers and tools and of the browser
    settings are declared outside [src/]; the records below have the
    fields that the prompt code reads. *)

Module McpTool.
Record t : Type := mk { name : string; description : string }.
End McpTool.

Module McpServer.
Record t : Type := mk {
  name : string;
  config : string;
  status : string;
  tools : option (list McpTool.t)
}.
End McpServer.

Record Viewport : Type := { width : safe_integer; height : safe_integer }.
Record BrowserSettings : Type := { viewport : Viewport }.

(** The registry hub, through the four operations the prompt code calls. *)
Record McpHub (World : Type) : Type := {
  getMode : M World string;
  getServers : M World (list McpServer.t);
  getMcpServersPath : M World string;
  getMcpSettingsFilePath : M World string
}.
Arguments getMode {World} _.
Arguments getServers {World} _.
Arguments getMcpServersPath {World} _.
Arguments getMcpSettingsFilePath {World} _.

(** Operating-system queries of [getSystemInfoPrompt]. *)
Class OsEnv (World : Type) : Type := {
  osName : M World string;
  getShell : M World string;
  os_homedir : M World string
}.

(** The section providers that [index.ts] imports and whose text is not
    under [src/]; they are parameters of the development.  The synchronous
    ones return a string; [getCapabilitiesPrompt] is awaited and is handed
    the hub. *)
Class StaticSections (World : Type) : Type := {
  getBasePrompt : string;
  getToolUsePrompt : string;
  getExecuteCommandPrompt : string -> string;
  getListCodeDefinitionNamesPrompt : string -> string;
  getListFilesPrompt : string -> string;
  getReadFilePrompt : string -> string;
  getReplaceInFilePrompt : string -> string;
  getSearchFilesPrompt : string -> string;
  getWriteToFilePrompt : string -> string;
  getAskFollowupQuestionPrompt : string;
  getAttemptCompletionPrompt : string;
  getUseMcpToolPrompt : string;
  getAccessMcpResourcePrompt : string;
  getModesPrompt : string;
  getCapabilitiesPrompt : string -> bool -> McpHub World -> M World string;
  getEditingPrompt : string;
  getObjectivePrompt : string
}.

(** ** Section providers *)

(** tools/modes/plan_mode_response.ts *)
Definition getPlanModeResponsePrompt : string :=
  lines [
      "";
      "## plan_mode_response";
      "Description: Respond to the user's inquiry in an effort to plan a solution to the user's task. This tool should be used when you need to provide a response to a question or statement from the user about how you plan to accomplish the task. This tool is only available in PLAN MODE. The environment_details will specify the current mode, if it is not PLAN MODE then you should not use this tool. Depending on the user's message, you may ask questions to get clarification about the user's request, architect a solution to the task, and to brainstorm ideas with the user.";
      "Parameters:";
      "- response: (required) The response to provide to the user. Do not try to use tools in this parameter, this is simply a chat response.";
      "Usage:";
      "<plan_mode_response>";
      "<response>Your response here</response>";
      "</plan_mode_response>";
      "" ].

(** tools/browser_action.ts *)
Definition getBrowserActionPrompt (browserSettings : BrowserSettings) : string :=
  lines [
      "";
      "   ## browser_action";
      "   Description: Request to interact with a Puppeteer-controlled browser. Every action, except `close`, will be responded to with a screenshot of the browser's current state, along with any new console logs. You may only perform one browser action per message, and wait for the user's response including a screenshot and logs to determine the next action.";
      "   - The sequence of actions **must always start with** launching the browser at a URL, and **must always end with** closing the browser. If you need to visit a new URL that is not possible to navigate to from the current webpage, you must first close the browser, then launch again at the new URL.";
      "   - While the browser is active, only the `browser_action` tool can be used. No other tools should be called during this time. You may proceed to use other tools only after closing the browser.";
      "   - The browser window has a resolution of " ++ number_to_string (width (viewport browserSettings)) ++ "x" ++ number_to_string (height (viewport browserSettings)) ++ " pixels. When performing any click actions, ensure the coordinates are within this resolution range.";
      "   - Before clicking on any elements such as icons, links, or buttons, you must consult the provided screenshot of the page to determine the coordinates of the element. The click should be targeted at the **center of the element**, not on its edges.";
      "   Parameters:";
      "   - action: (required) The action to perform. The available actions are:";
      "       * launch: Launch a new Puppeteer-controlled browser instance at the specified URL. This **must always be the first action**.";
      "           - Use with the `url` parameter to provide the URL.";
      "           - Ensure the URL is valid and includes the appropriate protocol (e.g. http://localhost:3000/page, file:///path/to/file.html, etc.)";
      "       * click: Click at a specific x,y coordinate.";
      "           - Use with the `coordinate` parameter to specify the location.";
      "           - Always click in the center of an element (icon, button, link, etc.) based on coordinates derived from a screenshot.";
      "       * type: Type a string of text on the keyboard. You might use this after clicking on a text field to input text.";
      "           - Use with the `text` parameter to provide the string to type.";
      "       * scroll_down: Scroll down the page by one page height.";
      "       * scroll_up: Scroll up the page by one page height.";
      "       * close: Close the Puppeteer-controlled browser instance. This **must always be the final browser action**.";
      "   - url: (optional) Use this for providing the URL for the `launch` action.";
      "   - coordinate: (optional) The X and Y coordinates for the `click` action. Coordinates should be within the " ++ number_to_string (width (viewport browserSettings)) ++ "x" ++ number_to_string (height (viewport browserSettings)) ++ " resolution.";
      "   - text: (optional) Use this for providing the text for the `type` action.";
      "   Usage:";
      "   <browser_action>";
      "   <action>Action to perform (e.g., launch, click, type, scroll_down, scroll_up, close)</action>";
      "   <url>URL to launch the browser at (optional)</url>";
      "   <coordinate>x,y coordinates (optional)</coordinate>";
      "   <text>Text to type (optional)</text>";
      "   </browser_action>";
      "   " ].

(** core_prompts/rules: the two passages added when the agent can drive a browser. *)
Definition rules_browser_tasks : string :=
  lines [
      "";
      "- The user may ask generic non-development tasks, such as " ++ dq ++ "what's the latest news" ++ dq ++ " or " ++ dq ++ "look up the weather in San Diego" ++ dq ++ ", in which case you might use the browser_action tool to complete the task if it makes sense to do so, rather than trying to create a website or using curl to answer the question." ].

Definition rules_browser_example : string :=
  lines [
      " For example, if testing a web app, you might use browser_action to launch the site, wait for confirmation and a screenshot, then proceed with further actions." ].

Definition getRulesPrompt (cwd : string) (supportsComputerUse : bool) : string :=
  lines [
      "";
      "====";
      "";
      "RULES";
      "";
      "- Your current working directory is: " ++ toPosix cwd;
      "- You cannot `cd` into a different directory to complete a task. You are stuck operating from '" ++ toPosix cwd ++ "', so be sure to pass in the correct 'path' parameter when using tools that require a path.";
      "- Do not use the ~ character or $HOME to refer to the home directory.";
      "- Before using the execute_command tool, you must first think about the SYSTEM INFORMATION context provided to understand the user's environment and tailor your commands to ensure they are compatible with their system. You must also consider if the command you need to run should be executed in a specific directory outside of the current working directory '" ++ toPosix cwd ++ "', and if so prepend with `cd`'ing into that directory && then executing the command (as one command since you are stuck operating from '" ++ toPosix cwd ++ "').";
      "- When using the search_files tool, craft your regex patterns carefully to balance specificity and flexibility. Based on the user's task you may use it to find code patterns, TODO comments, function definitions, or any text-based information across the project. The results include context, so analyze the surrounding code to better understand the matches.";
      "- When creating a new project (such as an app, website, or any software project), organize all new files within a dedicated project directory unless the user specifies otherwise. Use appropriate file paths when creating files, as the write_to_file tool will automatically create any necessary directories.";
      "- Be sure to consider the type of project (e.g. Python, JavaScript, web application) when determining the appropriate structure and files to include. Also consider what files may be most relevant to accomplishing the task.";
      "- When making changes to code, always consider the context in which the code is being used. Ensure that your changes are compatible with the existing codebase and that they follow the project's coding standards and best practices.";
      "- When you want to modify a file, use the replace_in_file or write_to_file tool directly with the desired changes. You do not need to display the changes before using the tool.";
      "- Do not ask for more information than necessary. Use the tools provided to accomplish the user's request efficiently and effectively. When you've completed your task, you must use the attempt_completion tool to present the result to the user.";
      "- You are only allowed to ask the user questions using the ask_followup_question tool. Use this tool only when you need additional details to complete a task, and be sure to use a clear and concise question that will help you move forward with the task.";
      "- When executing commands, if you don't see the expected output, assume the terminal executed the command successfully and proceed with the task. If you absolutely need to see the actual terminal output, use the ask_followup_question tool to request the user to copy and paste it back to you.";
      "- The user may provide a file's contents directly in their message, in which case you shouldn't use the read_file tool to get the file contents again since you already have it.";
      "- Your goal is to try to accomplish the user's task, NOT engage in a back and forth conversation." ]
  ++ (if supportsComputerUse then rules_browser_tasks else "")
  ++ lines [
      "";
      "- NEVER end attempt_completion result with a question or request to engage in further conversation! Formulate the end of your result in a way that is final and does not require further input from the user.";
      "- You are STRICTLY FORBIDDEN from starting your messages with " ++ dq ++ "Great" ++ dq ++ ", " ++ dq ++ "Certainly" ++ dq ++ ", " ++ dq ++ "Okay" ++ dq ++ ", " ++ dq ++ "Sure" ++ dq ++ ". You should NOT be conversational in your responses, but rather direct and to the point.";
      "- When presented with images, utilize your vision capabilities to thoroughly examine them and extract meaningful information.";
      "- At the end of each user message, you will automatically receive environment_details. This information is not written by the user themselves, but is auto-generated to provide potentially relevant context about the project structure and environment.";
      "- Before executing commands, check the " ++ dq ++ "Actively Running Terminals" ++ dq ++ " section in environment_details. If present, consider how these active processes might impact your task.";
      "- When using the replace_in_file tool, you must include complete lines in your SEARCH blocks, not partial lines.";
      "- When using the replace_in_file tool, if you use multiple SEARCH/REPLACE blocks, list them in the order they appear in the file.";
      "- It is critical you wait for the user's response after each tool use, in order to confirm the success of the tool use." ]
  ++ (if supportsComputerUse then rules_browser_example else "")
  ++ lines [
      "";
      "" ].

(** core_prompts/system_info.ts: the text around the four environment facts. *)
Definition system_info_text (os shell home cwd : string) : string :=
  lines [
      "";
      "====";
      "";
      "SYSTEM INFORMATION";
      "";
      "Operating System: " ++ os;
      "Default Shell: " ++ shell;
      "Home Directory: " ++ toPosix home;
      "Current Working Directory: " ++ toPosix cwd;
      "" ].

(** mcp/servers: one block per connected server. *)
Definition tool_line (tool : McpTool.t) : string :=
  "- " ++ McpTool.name tool ++ ": " ++ McpTool.description tool.

Definition tools_text (tools : option (list McpTool.t)) : string :=
  match tools with
  | None => ""
  | Some ts => js_or (join (map tool_line ts) nl) ""
  end.

Definition args_text (args : option json) : result string :=
  match args with
  | None => Ok ""
  | Some JNull => Ok ""
  | Some (JArray items) => s <-? array_join items " " ;; Ok (js_or s "")
  | Some _ => Err TypeError
  end.

(** [${config.command}], the first interpolation that reads the configuration. *)
Definition command_text (config : json) : result string :=
  command <-? get_property config "command" ;; template_value command.

(** [${config.args?.join(" ") || ""}], the second. *)
Definition arguments_text (config : json) : result string :=
  args <-? get_property config "args" ;; args_text args.

Definition server_block (name command args tools : string) : string :=
  "## " ++ name ++ " (`" ++ command ++ " " ++ args ++ "`)" ++ nl ++ nl
  ++ "### Available Tools" ++ nl ++ tools.

Section Parser.
Context `{JsonParser}.

Definition render_server (server : McpServer.t) : result string :=
  match JSON_parse (McpServer.config server) with
  | None => Err SyntaxError
  | Some config =>
      let tools := tools_text (McpServer.tools server) in
      command <-? get_property config "command" ;;
      command <-? template_value command ;;
      args <-? get_property config "args" ;;
      args <-? args_text args ;;
      Ok (server_block (McpServer.name server) command args tools)
  end.
End Parser.

Definition is_connected (server : McpServer.t) : bool :=
  McpServer.status server =? "connected".

Definition no_servers_connected : string := "(No MCP servers currently connected)".
Definition none_running : string := "(None running currently)".

Definition mcp_servers_text (connectedServers : string) : string :=
  lines [
      "";
      "====";
      "";
      "MCP SERVERS";
      "";
      "The Model Context Protocol (MCP) enables communication between the system and locally running MCP servers that provide additional tools and resources to extend your capabilities.";
      "";
      "# Connected MCP Servers";
      "";
      "When a server is connected, you can use the server's tools via the `use_mcp_tool` tool, and access the server's resources via the `access_mcp_resource` tool.";
      "";
      connectedServers;
      "";
      "- MCP operations should be used one at a time, similar to other tool usage. Wait for confirmation of success before proceeding with additional operations.";
      "" ].

Definition mcp_creation_text (mcpServersPath mcpSettingsFilePath connectedServers : string) : string :=
  lines [
      "";
      "## Creating an MCP Server";
      "";
      "The user may ask you something along the lines of " ++ dq ++ "add a tool" ++ dq ++ " that does some function, in other words to create an MCP server that provides tools and resources that may connect to external APIs for example. You have the ability to create an MCP server and add it to a configuration file that will then expose the tools and resources for you to use with `use_mcp_tool` and `access_mcp_resource`.";
      "";
      "When creating MCP servers, it's important to understand that they operate in a non-interactive environment. All credentials and authentication tokens must be provided upfront through environment variables in the MCP settings configuration.";
      "";
      "Unless the user specifies otherwise, new MCP servers should be created in: " ++ mcpServersPath;
      "";
      "### Example MCP Server";
      "";
      "For example, if the user wanted to give you the ability to retrieve weather information, you could create an MCP server that uses the OpenWeather API:";
      "";
      "1. Use the `create-typescript-server` tool to bootstrap a new project:";
      "";
      "```bash";
      "cd " ++ mcpServersPath;
      "npx @modelcontextprotocol/create-server weather-server";
      "cd weather-server";
      "npm install axios";
      "```";
      "";
      "2. Replace `src/index.ts` with:";
      "";
      "```typescript";
      "#!/usr/bin/env node";
      "import { Server } from '@modelcontextprotocol/sdk/server/index.js';";
      "import { StdioServerTransport } from '@modelcontextprotocol/sdk/server/stdio.js';";
      "import { CallToolRequestSchema, ErrorCode, ListToolsRequestSchema, McpError } from '@modelcontextprotocol/sdk/types.js';";
      "import axios from 'axios';";
      "";
      "const API_KEY = process.env.OPENWEATHER_API_KEY;";
      "if (!API_KEY) throw new Error('OPENWEATHER_API_KEY required');";
      "";
      "class WeatherServer {";
      "    private server: Server;";
      "    private axiosInstance;";
      "";
      "    constructor() {";
      "        this.server = new Server({ name: 'weather-server', version: '0.1.0' }, { capabilities: { tools: {} } });";
      "        this.axiosInstance = axios.create({ baseURL: 'http://api.openweathermap.org/data/2.5', params: { appid: API_KEY, units: 'metric' } });";
      "        this.setupToolHandlers();";
      "    }";
      "";
      "    private setupToolHandlers() {";
      "        this.server.setRequestHandler(ListToolsRequestSchema, async () => ({";
      "            tools: [{ name: 'get_forecast', description: 'Get weather forecast', inputSchema: { type: 'object', properties: { city: { type: 'string' } }, required: ['city'] } }]";
      "        }));";
      "        this.server.setRequestHandler(CallToolRequestSchema, async (request) => {";
      "            if (request.params.name === 'get_forecast') {";
      "                const city = request.params.arguments.city;";
      "                const response = await this.axiosInstance.get('weather', { params: { q: city } });";
      "                return { content: [{ type: 'text', text: JSON.stringify(response.data, null, 2) }] };";
      "            }";
      "            throw new McpError(ErrorCode.MethodNotFound, `Unknown tool: ${request.params.name}`);";
      "        });";
      "    }";
      "";
      "    async run() {";
      "        const transport = new StdioServerTransport();";
      "        await this.server.connect(transport);";
      "        console.error('Weather MCP server running');";
      "    }";
      "}";
      "";
      "const server = new WeatherServer();";
      "server.run().catch(console.error);";
      "```";
      "";
      "3. Build the server:";
      "";
      "```bash";
      "npm run build";
      "```";
      "";
      "4. Add to the MCP settings file at '" ++ mcpSettingsFilePath ++ "':";
      "";
      "```json";
      "{";
      "    " ++ dq ++ "mcpServers" ++ dq ++ ": {";
      "        " ++ dq ++ "weather" ++ dq ++ ": {";
      "            " ++ dq ++ "command" ++ dq ++ ": " ++ dq ++ "node" ++ dq ++ ",";
      "            " ++ dq ++ "args" ++ dq ++ ": [" ++ dq ++ mcpServersPath ++ "/weather-server/build/index.js" ++ dq ++ "],";
      "            " ++ dq ++ "env" ++ dq ++ ": { " ++ dq ++ "OPENWEATHER_API_KEY" ++ dq ++ ": " ++ dq ++ "user-provided-api-key" ++ dq ++ " },";
      "            " ++ dq ++ "disabled" ++ dq ++ ": false,";
      "            " ++ dq ++ "autoApprove" ++ dq ++ ": []";
      "        }";
      "    }";
      "}";
      "```";
      "";
      "## Editing MCP Servers";
      "";
      "The user may ask to add tools or resources to an existing MCP server (e.g., " ++ connectedServers ++ "). This is possible if you can locate the repository via server arguments.";
      "";
      "# MCP Servers Are Not Always Necessary";
      "";
      "Only implement MCP servers when explicitly requested (e.g., " ++ dq ++ "add a tool that..." ++ dq ++ ").";
      "" ].

(** tools/browser.ts: the short description of the browser tool. *)
Definition getBrowserToolsPrompt (browserSettings : BrowserSettings) : string :=
  lines [
      "";
      "## browser_action";
      "Description: Request to interact with a Puppeteer-controlled browser. Every action, except `close`, will be responded to with a screenshot of the browser's current state.";
      "- The browser window has a resolution of " ++ number_to_string (width (viewport browserSettings)) ++ "x" ++ number_to_string (height (viewport browserSettings)) ++ " pixels...";
      "Parameters:";
      "- action: (required) The action to perform (e.g., launch, click, type, close)...";
      "Usage:";
      "<browser_action>";
      "<action>launch</action>";
      "<url>https://example.com</url>";
      "</browser_action>";
      "" ].

(** The tool-use preamble with the execute_command tool (a file of the
    repository whose name is not known). *)
Definition getCoreToolsPrompt (cwd : string) : string :=
  lines [
      "";
      "TOOL USE";
      "";
      "You have access to a set of tools that are executed upon the user's approval. You can use one tool per message, and will receive the result of that tool use in the user's response.";
      "";
      "## execute_command";
      "Description: Request to execute a CLI command on the system. Use this when you need to perform system operations or run specific commands.";
      "Parameters:";
      "- command: (required) The CLI command to execute. This should be valid for the current operating system.";
      "- requires_approval: (required) A boolean indicating whether this command requires explicit user approval.";
      "Usage:";
      "<execute_command>";
      "<command>Your command here</command>";
      "<requires_approval>true or false</requires_approval>";
      "</execute_command>";
      "";
      "Current working directory: " ++ toPosix cwd;
      "" ].

Section Prompts.
Context {World : Type}.
Context `{JsonParser} `{OsEnv World} `{StaticSections World}.

(** core_prompts/system_info.ts *)
Definition getSystemInfoPrompt (cwd : string) : M World string :=
  os <- osName ;;
  shell <- getShell ;;
  home <- os_homedir ;;
  ret (system_info_text os shell home cwd).

(** mcp/servers *)
Definition getMcpServersPrompt (mcpHub : McpHub World) : M World string :=
  mcpMode <- getMode mcpHub ;;
  if mcpMode =? "off" then ret ""
  else
    servers <- getServers mcpHub ;;
    blocks <- lift (map_result render_server (filter is_connected servers)) ;;
    let connectedServers := js_or (join blocks (nl ++ nl)) no_servers_connected in
    ret (mcp_servers_text connectedServers).

(** mcp/creation.ts *)
Definition getMcpCreationPrompt (mcpHub : McpHub World) : M World string :=
  mcpServersPath <- getMcpServersPath mcpHub ;;
  mcpSettingsFilePath <- getMcpSettingsFilePath mcpHub ;;
  servers <- getServers mcpHub ;;
  let connectedServers :=
    js_or (join (map McpServer.name (filter is_connected servers)) ", ") none_running in
  ret (mcp_creation_text mcpServersPath mcpSettingsFilePath connectedServers).

(** index.ts: the array literal, its elements evaluated in order. *)
Definition base_sections (cwd : string) (supportsComputerUse : bool)
    (mcpHub : McpHub World) : M World (list string) :=
  capabilities <- getCapabilitiesPrompt cwd supportsComputerUse mcpHub ;;
  mcpServers <- getMcpServersPrompt mcpHub ;;
  systemInfo <- getSystemInfoPrompt cwd ;;
  mcpCreation <- getMcpCreationPrompt mcpHub ;;
  ret [ getBasePrompt;
        getToolUsePrompt;
        getExecuteCommandPrompt cwd;
        getListCodeDefinitionNamesPrompt cwd;
        getListFilesPrompt cwd;
        getReadFilePrompt cwd;
        getReplaceInFilePrompt cwd;
        getSearchFilesPrompt cwd;
        getWriteToFilePrompt cwd;
        getAskFollowupQuestionPrompt;
        getAttemptCompletionPrompt;
        getPlanModeResponsePrompt;
        getUseMcpToolPrompt;
        getAccessMcpResourcePrompt;
        getModesPrompt;
        capabilities;
        getEditingPrompt;
        mcpServers;
        systemInfo;
        getObjectivePrompt;
        getRulesPrompt cwd supportsComputerUse;
        mcpCreation ].

(** index.ts: the array after the conditional splice. *)
Definition prompt_sections (cwd : string) (supportsComputerUse : bool)
    (mcpHub : McpHub World) (browserSettings : BrowserSettings) : M World (list string) :=
  sections <- base_sections cwd supportsComputerUse mcpHub ;;
  ret (if supportsComputerUse
       then splice sections 3 0 [getBrowserActionPrompt browserSettings]
       else sections).

Definition SYSTEM_PROMPT (cwd : string) (supportsComputerUse : bool)
    (mcpHub : McpHub World) (browserSettings : BrowserSettings) : M World string :=
  sections <- prompt_sections cwd supportsComputerUse mcpHub browserSettings ;;
  ret (join sections (nl ++ nl)).
End Prompts.

(** ** The call without a working directory

    The signature of [SYSTEM_PROMPT] requires [cwd] and TypeScript refuses
    a call that leaves it out.  A caller that is not type-checked can
    leave it out, and the function then runs with [cwd] being [undefined]:
    below, [None]. *)

(** What the providers whose source is not available do when their [cwd]
    is [undefined]: like their texts, parameters of the development. *)
Class UntypedSections (World : Type) : Type := {
  getExecuteCommandPrompt_undefined : result string;
  getListCodeDefinitionNamesPrompt_undefined : result string;
  getListFilesPrompt_undefined : result string;
  getReadFilePrompt_undefined : result string;
  getReplaceInFilePrompt_undefined : result string;
  getSearchFilesPrompt_undefined : result string;
  getWriteToFilePrompt_undefined : result string;
  getCapabilitiesPrompt_undefined : bool -> McpHub World -> M World string
}.

Definition provider_call (provider : string -> string) (undefined : result string)
    (cwd : option string) : result string :=
  match cwd with
  | Some directory => Ok (provider directory)
  | None => undefined
  end.

(** core_prompts/rules: the first interpolation of the template is
    [cwd.toPosix()], and reading a property of [undefined] throws a
    TypeError. *)
Definition getRulesPrompt_untyped (cwd : option string) (supportsComputerUse : bool)
    : result string :=
  match cwd with
  | Some directory => Ok (getRulesPrompt directory supportsComputerUse)
  | None => Err TypeError
  end.

Section Untyped.
Context {World : Type}.
Context `{JsonParser} `{OsEnv World} `{StaticSections World} `{UntypedSections World}.

(** core_prompts/system_info.ts: [cwd.toPosix()] is the last of the four
    interpolations, after the three queries of the system. *)
Definition getSystemInfoPrompt_untyped (cwd : option string) : M World string :=
  os <- osName ;;
  shell <- getShell ;;
  home <- os_homedir ;;
  match cwd with
  | Some directory => ret (system_info_text os shell home directory)
  | None => throw TypeError
  end.

Definition getCapabilitiesPrompt_untyped (cwd : option string) (supportsComputerUse : bool)
    (mcpHub : McpHub World) : M World string :=
  match cwd with
  | Some directory => getCapabilitiesPrompt directory supportsComputerUse mcpHub
  | None => getCapabilitiesPrompt_undefined supportsComputerUse mcpHub
  end.

(** index.ts: the array literal, every element that is handed [cwd] in its
    place in the order of evaluation. *)
Definition base_sections_untyped (cwd : option string) (supportsComputerUse : bool)
    (mcpHub : McpHub World) : M World (list string) :=
  executeCommand <-
    lift (provider_call getExecuteCommandPrompt getExecuteCommandPrompt_undefined cwd) ;;
  listCodeDefinitionNames <-
    lift (provider_call getListCodeDefinitionNamesPrompt
            getListCodeDefinitionNamesPrompt_undefined cwd) ;;
  listFiles <- lift (provider_call getListFilesPrompt getListFilesPrompt_undefined cwd) ;;
  readFile <- lift (provider_call getReadFilePrompt getReadFilePrompt_undefined cwd) ;;
  replaceInFile <-
    lift (provider_call getReplaceInFilePrompt getReplaceInFilePrompt_undefined cwd) ;;
  searchFiles <-
    lift (provider_call getSearchFilesPrompt getSearchFilesPrompt_undefined cwd) ;;
  writeToFile <-
    lift (provider_call getWriteToFilePrompt getWriteToFilePrompt_undefined cwd) ;;
  capabilities <- getCapabilitiesPrompt_untyped cwd supportsComputerUse mcpHub ;;
  mcpServers <- getMcpServersPrompt mcpHub ;;
  systemInfo <- getSystemInfoPrompt_untyped cwd ;;
  rules <- lift (getRulesPrompt_untyped cwd supportsComputerUse) ;;
  mcpCreation <- getMcpCreationPrompt mcpHub ;;
  ret [ getBasePrompt;
        getToolUsePrompt;
        executeCommand;
        listCodeDefinitionNames;
        listFiles;
        readFile;
        replaceInFile;
        searchFiles;
        writeToFile;
        getAskFollowupQuestionPrompt;
        getAttemptCompletionPrompt;
        getPlanModeResponsePrompt;
        getUseMcpToolPrompt;
        getAccessMcpResourcePrompt;
        getModesPrompt;
        capabilities;
        getEditingPrompt;
        mcpServers;
        systemInfo;
        getObjectivePrompt;
        rules;
        mcpCreation ].

Definition SYSTEM_PROMPT_untyped (cwd : option string) (supportsComputerUse : bool)
    (mcpHub : McpHub World) (browserSettings : BrowserSettings) : M World string :=
  sections <- base_sections_untyped cwd supportsComputerUse mcpHub ;;
  let sections :=
    if supportsComputerUse
    then splice sections 3 0 [getBrowserActionPrompt browserSettings]
    else sections in
  ret (join sections (nl ++ nl)).
End Untyped.

(** ** Properties of effectful computations *)

(** In every state of the world, [m] returns [a]. *)
Definition returns {World A : Type} (m : M World A) (a : A) : Prop :=
  forall w, fst (m w) = Ok a.

(** In every state of the world, [m] throws. *)
Definition fails {World A : Type} (m : M World A) : Prop :=
  forall w, is_ok (fst (m w)) = false.

(** [m1] and [m2] give the same answer, a value or an exception, and the
    same one whatever the state of the world they are asked in. *)
Definition same_answers {World A : Type} (m1 m2 : M World A) : Prop :=
  forall w1 w2, fst (m1 w1) = fst (m2 w2).

(** The hub whose server list is passed through [g] before it is read. *)
Definition with_servers {World : Type} (g : list McpServer.t -> list McpServer.t)
    (mcpHub : McpHub World) : McpHub World :=
  {| getMode := getMode mcpHub;
     getServers := (servers <- getServers mcpHub ;; ret (g servers));
     getMcpServersPath := getMcpServersPath mcpHub;
     getMcpSettingsFilePath := getMcpSettingsFilePath mcpHub |}.

(** The joining rule in the words of the specification: sections whose text
    is empty are skipped, the others are joined with the separator. *)
Definition spec_join_sections (sections : list string) : string :=
  join (filter (fun s => negb (s =? "")) sections) (nl ++ nl).

(** The sections in the order of the array literal, the four effectful ones
    given by their texts. *)
Definition section_list {World : Type} `{StaticSections World}
    (cwd : string) (supportsComputerUse : bool) (browser : list string)
    (capabilities mcpServers systemInfo mcpCreation : string) : list string :=
  ([ getBasePrompt; getToolUsePrompt; getExecuteCommandPrompt cwd ] ++ browser ++
   [ getListCodeDefinitionNamesPrompt cwd; getListFilesPrompt cwd; getReadFilePrompt cwd;
     getReplaceInFilePrompt cwd; getSearchFilesPrompt cwd; getWriteToFilePrompt cwd;
     getAskFollowupQuestionPrompt; getAttemptCompletionPrompt; getPlanModeResponsePrompt;
     getUseMcpToolPrompt; getAccessMcpResourcePrompt; getModesPrompt;
     capabilities; getEditingPrompt; mcpServers; systemInfo; getObjectivePrompt;
     getRulesPrompt cwd supportsComputerUse; mcpCreation ])%list.

(** ** A concrete world for examples *)

Module Sample.

(** The registry and its reachability are the state of the world. *)
Record World : Type := {
  reachable : bool;
  mode : string;
  servers : list McpServer.t;
  serversPath : string;
  settingsFilePath : string
}.

Definition query {A : Type} (read : World -> A) : M World A :=
  fun w => if reachable w then ret (read w) w
           else throw (Rejected "RegistryUnavailable") w.

Definition hub : McpHub World :=
  {| getMode := query mode;
     getServers := query servers;
     getMcpServersPath := query serversPath;
     getMcpSettingsFilePath := query settingsFilePath |}.

(** The hub of a registry that stays as [snapshot] shows it, whatever the
    current state of the world. *)
Definition frozen (snapshot : World) : McpHub World :=
  {| getMode := fun w => (fst (query mode snapshot), w);
     getServers := fun w => (fst (query servers snapshot), w);
     getMcpServersPath := fun w => (fst (query serversPath snapshot), w);
     getMcpSettingsFilePath := fun w => (fst (query settingsFilePath snapshot), w) |}.

#[export] Instance windows : OsEnv World :=
  {| osName := ret "Windows 11";
     getShell := ret "cmd.exe";
     os_homedir := ret "C:\Users\dev" |}.

Definition alpha_config : string :=
  "{" ++ dq ++ "command" ++ dq ++ ":" ++ dq ++ "node" ++ dq ++ ","
      ++ dq ++ "args" ++ dq ++ ":[" ++ dq ++ "alpha.js" ++ dq ++ "]}".

Definition alpha_json : json :=
  JObject [ ("command", JString "node"); ("args", JArray [JString "alpha.js"]) ].

(** What [JSON.parse] does on the two configuration texts of the examples:
    [alpha_config] parses, anything else here is not JSON. *)
#[export] Instance parser : JsonParser :=
  {| JSON_parse := fun text => if text =? alpha_config then Some alpha_json else None |}.

(** Stand-ins for the providers whose text is not available. *)
#[export] Instance static_sections : StaticSections World :=
  {| getBasePrompt := "You are Cline.";
     getToolUsePrompt := "TOOL USE";
     getExecuteCommandPrompt := fun cwd => "## execute_command in " ++ toPosix cwd;
     getListCodeDefinitionNamesPrompt := fun cwd => "## list_code_definition_names in " ++ toPosix cwd;
     getListFilesPrompt := fun cwd => "## list_files in " ++ toPosix cwd;
     getReadFilePrompt := fun cwd => "## read_file in " ++ toPosix cwd;
     getReplaceInFilePrompt := fun cwd => "## replace_in_file in " ++ toPosix cwd;
     getSearchFilesPrompt := fun cwd => "## search_files in " ++ toPosix cwd;
     getWriteToFilePrompt := fun cwd => "## write_to_file in " ++ toPosix cwd;
     getAskFollowupQuestionPrompt := "## ask_followup_question";
     getAttemptCompletionPrompt := "## attempt_completion";
     getUseMcpToolPrompt := "## use_mcp_tool";
     getAccessMcpResourcePrompt := "## access_mcp_resource";
     getModesPrompt := "ACT MODE V.S. PLAN MODE";
     getCapabilitiesPrompt := fun _ _ _ => ret "CAPABILITIES";
     getEditingPrompt := "EDITING FILES";
     getObjectivePrompt := "OBJECTIVE" |}.

Definition browserSettings : BrowserSettings :=
  {| viewport := {| width := {| whole := 900; whole_safe := eq_refl |};
                    height := {| whole := 600; whole_safe := eq_refl |} |} |}.

Definition fetch : McpTool.t :=
  McpTool.mk "fetch" "retrieves a URL".

Definition alpha : McpServer.t :=
  McpServer.mk "alpha" alpha_config "connected" (Some [fetch]).

Definition beta : McpServer.t :=
  McpServer.mk "beta" alpha_config "connecting" (Some [fetch]).

Definition gamma : McpServer.t :=
  McpServer.mk "gamma" "{not json" "failed" None.

Definition broken : McpServer.t :=
  McpServer.mk "broken" "{not json" "connected" None.

(** One connected server, registry integration enabled. *)
Definition one_server : World :=
  {| reachable := true; mode := "full"; servers := [alpha];
     serversPath := "/home/dev/Cline/MCP";
     settingsFilePath := "/home/dev/.cline/cline_mcp_settings.json" |}.

(** Registry integration switched off. *)
Definition integration_off : World :=
  {| reachable := true; mode := "off"; servers := [alpha];
     serversPath := "/home/dev/Cline/MCP";
     settingsFilePath := "/home/dev/.cline/cline_mcp_settings.json" |}.

(** The registry cannot be reached. *)
Definition unreachable : World :=
  {| reachable := false; mode := "full"; servers := [];
     serversPath := "/home/dev/Cline/MCP";
     settingsFilePath := "/home/dev/.cline/cline_mcp_settings.json" |}.

(** A Windows host: the registry reports host-native paths. *)
Definition windows_host : World :=
  {| reachable := true; mode := "full"; servers := [alpha];
     serversPath := "C:\Users\dev\Documents\Cline\MCP";
     settingsFilePath := "C:\Users\dev\AppData\cline_mcp_settings.json" |}.

(** One connected server among entries that are connecting or failed. *)
Definition mixed : World :=
  {| reachable := true; mode := "full"; servers := [gamma; alpha; beta];
     serversPath := "/home/dev/Cline/MCP";
     settingsFilePath := "/home/dev/.cline/cline_mcp_settings.json" |}.

(** Integration off while a connected server has a malformed configuration. *)
Definition off_with_broken_config : World :=
  {| reachable := true; mode := "off"; servers := [broken];
     serversPath := "/home/dev/Cline/MCP";
     settingsFilePath := "/home/dev/.cline/cline_mcp_settings.json" |}.

End Sample.

(** ** Further configurations for examples *)

Module Cases.

(** A configuration whose arguments are one string, not an array. *)
Definition string_args_config : string :=
  "{" ++ dq ++ "command" ++ dq ++ ":" ++ dq ++ "node" ++ dq ++ ","
      ++ dq ++ "args" ++ dq ++ ":" ++ dq ++ "alpha.js" ++ dq ++ "}".

(** What [JSON.parse] does on the configuration texts of the examples. *)
Definition parser : JsonParser :=
  {| JSON_parse := fun text =>
       if text =? Sample.alpha_config then Some Sample.alpha_json
       else if text =? "null" then Some JNull
       else if text =? "{}" then Some (JObject [])
       else if text =? string_args_config
            then Some (JObject [("command", JString "node"); ("args", JString "alpha.js")])
       else None |}.

Definition nothing : McpServer.t :=
  McpServer.mk "nothing" "null" "connected" None.

Definition bare : McpServer.t :=
  McpServer.mk "bare" "{}" "connected" (Some [Sample.fetch]).

Definition string_args : McpServer.t :=
  McpServer.mk "string-args" string_args_config "connected" None.

Definition registry (servers : list McpServer.t) : Sample.World :=
  {| Sample.reachable := true; Sample.mode := "full"; Sample.servers := servers;
     Sample.serversPath := "/home/dev/Cline/MCP";
     Sample.settingsFilePath := "/home/dev/.cline/cline_mcp_settings.json" |}.

(** A Windows host that reports the full path of its shell. *)
Definition shell_path : OsEnv Sample.World :=
  {| osName := ret "Windows 11";
     getShell := ret "C:\Windows\System32\cmd.exe";
     os_homedir := ret "C:\Users\dev" |}.

End Cases.

(** ** A host whose default shell can change *)

Module Host.

(** The state of the world: the registry and the default shell of the user. *)
Record World : Type := { registry : Sample.World; shell : string }.

(** The hub reads the registry. *)
Definition hub : McpHub World :=
  {| getMode := fun w => (fst (Sample.query Sample.mode (registry w)), w);
     getServers := fun w => (fst (Sample.query Sample.servers (registry w)), w);
     getMcpServersPath := fun w => (fst (Sample.query Sample.serversPath (registry w)), w);
     getMcpSettingsFilePath :=
       fun w => (fst (Sample.query Sample.settingsFilePath (registry w)), w) |}.

Definition os : OsEnv World :=
  {| osName := ret "Linux";
     getShell := fun w => (Ok (shell w), w);
     os_homedir := ret "/home/dev" |}.

(** The stand-ins of the sample, for this world. *)
Definition static_sections : StaticSections World :=
  let sample := Sample.static_sections in
  {| getBasePrompt := @getBasePrompt _ sample;
     getToolUsePrompt := @getToolUsePrompt _ sample;
     getExecuteCommandPrompt := @getExecuteCommandPrompt _ sample;
     getListCodeDefinitionNamesPrompt := @getListCodeDefinitionNamesPrompt _ sample;
     getListFilesPrompt := @getListFilesPrompt _ sample;
     getReadFilePrompt := @getReadFilePrompt _ sample;
     getReplaceInFilePrompt := @getReplaceInFilePrompt _ sample;
     getSearchFilesPrompt := @getSearchFilesPrompt _ sample;
     getWriteToFilePrompt := @getWriteToFilePrompt _ sample;
     getAskFollowupQuestionPrompt := @getAskFollowupQuestionPrompt _ sample;
     getAttemptCompletionPrompt := @getAttemptCompletionPrompt _ sample;
     getUseMcpToolPrompt := @getUseMcpToolPrompt _ sample;
     getAccessMcpResourcePrompt := @getAccessMcpResourcePrompt _ sample;
     getModesPrompt := @getModesPrompt _ sample;
     getCapabilitiesPrompt := fun _ _ _ => ret "CAPABILITIES";
     getEditingPrompt := @getEditingPrompt _ sample;
     getObjectivePrompt := @getObjectivePrompt _ sample |}.

(** The same registry, before and after the user has changed shells. *)
Definition bash : World := {| registry := Sample.one_server; shell := "/bin/bash" |}.
Definition zsh : World := {| registry := Sample.one_server; shell := "/bin/zsh" |}.

End Host.

(** ** The scenario of the server alpha *)

Module Scenario.

(** A configuration with an environment, its keys in another order. *)
Definition env_config : string :=
  "{" ++ dq ++ "env" ++ dq ++ ":{" ++ dq ++ "TOKEN" ++ dq ++ ":" ++ dq ++ "t" ++ dq ++ "},"
      ++ dq ++ "args" ++ dq ++ ":[" ++ dq ++ "alpha.js" ++ dq ++ "," ++ dq ++ "--port" ++ dq
      ++ "," ++ dq ++ "8080" ++ dq ++ "],"
      ++ dq ++ "command" ++ dq ++ ":" ++ dq ++ "node" ++ dq ++ "}".

Definition env_json : json :=
  JObject [ ("env", JObject [("TOKEN", JString "t")]);
            ("args", JArray [JString "alpha.js"; JString "--port"; JString "8080"]);
            ("command", JString "node") ].

(** What [JSON.parse] does on the configuration texts of the scenario. *)
Definition parser : JsonParser :=
  {| JSON_parse := fun text => if text =? env_config then Some env_json else None |}.

(** The server alpha of the scenario, with a configuration text. *)
Definition alpha (config : string) : McpServer.t :=
  McpServer.mk "alpha" config "connected" (Some [McpTool.mk "fetch" "retrieves a URL"]).

(** The registry of the scenario: integration enabled, alpha the one entry. *)
Definition registry (config : string) : Sample.World :=
  {| Sample.reachable := true; Sample.mode := "full"; Sample.servers := [alpha config];
     Sample.serversPath := "/home/dev/Cline/MCP";
     Sample.settingsFilePath := "/home/dev/.cline/cline_mcp_settings.json" |}.

(** The same with two more entries, one connecting and one failed. *)
Definition crowded (config : string) : Sample.World :=
  {| Sample.reachable := true; Sample.mode := "full";
     Sample.servers := [Sample.gamma; alpha config; Sample.beta];
     Sample.serversPath := "/home/dev/Cline/MCP";
     Sample.settingsFilePath := "/home/dev/.cline/cline_mcp_settings.json" |}.

End Scenario.

(** ** Stand-ins for a call without a working directory *)

Module Loose.

(** Providers that print [undefined] where the directory would stand. *)
Definition tolerant : UntypedSections Sample.World :=
  {| getExecuteCommandPrompt_undefined := Ok "## execute_command in undefined";
     getListCodeDefinitionNamesPrompt_undefined :=
       Ok "## list_code_definition_names in undefined";
     getListFilesPrompt_undefined := Ok "## list_files in undefined";
     getReadFilePrompt_undefined := Ok "## read_file in undefined";
     getReplaceInFilePrompt_undefined := Ok "## replace_in_file in undefined";
     getSearchFilesPrompt_undefined := Ok "## search_files in undefined";
     getWriteToFilePrompt_undefined := Ok "## write_to_file in undefined";
     getCapabilitiesPrompt_undefined := fun _ _ => ret "CAPABILITIES" |}.

(** Providers that call [cwd.toPosix()], as those under [src/] do. *)
Definition strict : UntypedSections Sample.World :=
  {| getExecuteCommandPrompt_undefined := Err TypeError;
     getListCodeDefinitionNamesPrompt_undefined := Err TypeError;
     getListFilesPrompt_undefined := Err TypeError;
     getReadFilePrompt_undefined := Err TypeError;
     getReplaceInFilePrompt_undefined := Err TypeError;
     getSearchFilesPrompt_undefined := Err TypeError;
     getWriteToFilePrompt_undefined := Err TypeError;
     getCapabilitiesPrompt_undefined := fun _ _ => throw TypeError |}.

End Loose.

(** * Properties *)

(** ** Strings and arrays *)

Lemma append_assoc (a b c : string) : (a ++ b) ++ c = a ++ b ++ c.
Proof.
  induction a as [|ch a IH]; simpl; [reflexivity | now rewrite IH].
Qed.

Lemma length_append (a b : string) :
  String.length (a ++ b) = String.length a + String.length b.
Proof.
  induction a as [|ch a IH]; simpl; [reflexivity | now rewrite IH].
Qed.

Lemma join_one (x sep : string) : join [x] sep = x.
Proof. reflexivity. Qed.

Lemma join_cons (x y : string) (l : list string) (sep : string) :
  join (x :: y :: l) sep = x ++ sep ++ join (y :: l) sep.
Proof. reflexivity. Qed.

Lemma join_app (l1 l2 : list string) (sep : string) :
  l1 <> [] -> l2 <> [] ->
  join (l1 ++ l2)%list sep = join l1 sep ++ sep ++ join l2 sep.
Proof.
  intros H1 H2. induction l1 as [|x l1 IH]; [congruence|].
  destruct l1 as [|y l1].
  - destruct l2 as [|z l2]; [congruence | reflexivity].
  - change ((x :: y :: l1) ++ l2)%list with (x :: y :: (l1 ++ l2)%list).
    rewrite (join_cons x y (l1 ++ l2)), (join_cons x y l1).
    change (y :: (l1 ++ l2)%list) with ((y :: l1) ++ l2)%list.
    rewrite IH by discriminate.
    now rewrite !append_assoc.
Qed.

(** An empty entry between two others leaves two separators in a row. *)
Lemma join_empty_entry (l1 l2 : list string) (sep : string) :
  l1 <> [] -> l2 <> [] ->
  join (l1 ++ "" :: l2)%list sep = join l1 sep ++ sep ++ sep ++ join l2 sep.
Proof.
  intros H1 H2. rewrite join_app by (assumption || discriminate).
  destruct l2 as [|y l2]; [congruence|]. now rewrite join_cons.
Qed.

Lemma js_or_same (s : string) : js_or s "" = s.
Proof. now destruct s. Qed.

Lemma toPosix_no_backslash (p : string) : no_backslash (toPosix p) = true.
Proof.
  unfold no_backslash, toPosix.
  induction p as [|c p IH]; [reflexivity|].
  cbn [string_map string_forallb]. rewrite IH, andb_true_r.
  destruct (Ascii.eqb c backslash) eqn:E; [reflexivity | now rewrite E].
Qed.

Lemma toPosix_fixes_posix (p : string) : no_backslash p = true -> toPosix p = p.
Proof.
  unfold no_backslash, toPosix.
  induction p as [|c p IH]; [reflexivity|].
  cbn [string_map string_forallb]. intros [Hc Hp]%andb_true_iff.
  rewrite IH by assumption.
  destruct (Ascii.eqb c backslash); [discriminate | reflexivity].
Qed.

(** ** The monad *)

Section MonadFacts.
Context {World A B : Type}.
Implicit Types (m : M World A) (k : A -> M World B).

Lemma bind_ok m k w a w1 : m w = (Ok a, w1) -> bind m k w = k a w1.
Proof. unfold bind. now intros ->. Qed.

Lemma bind_ok_inv m k w b w' :
  bind m k w = (Ok b, w') -> exists a w1, m w = (Ok a, w1) /\ k a w1 = (Ok b, w').
Proof.
  unfold bind. destruct (m w) as [[a|e] w1]; [eauto | discriminate].
Qed.

Lemma bind_returns m k a w : returns m a -> bind m k w = k a (snd (m w)).
Proof.
  intros R. unfold bind. specialize (R w). destruct (m w) as [r w1].
  simpl in *. now subst r.
Qed.

End MonadFacts.

Lemma fails_not_ok {World A : Type} (m : M World A) w a w' : fails m -> m w <> (Ok a, w').
Proof. intros F E. specialize (F w). now rewrite E in F. Qed.

Lemma same_answers_ret {World A : Type} (a : A) : same_answers (@ret World A a) (ret a).
Proof. now intros w1 w2. Qed.

Lemma same_answers_bind {World A B : Type} (m1 m2 : M World A) (k1 k2 : A -> M World B) :
  same_answers m1 m2 -> (forall a, same_answers (k1 a) (k2 a)) ->
  same_answers (bind m1 k1) (bind m2 k2).
Proof.
  intros Hm Hk w1 w2. unfold bind. specialize (Hm w1 w2).
  destruct (m1 w1) as [[a1|e1] u1], (m2 w2) as [[a2|e2] u2]; simpl in Hm;
    try discriminate.
  - injection Hm as <-. apply Hk.
  - injection Hm as <-. reflexivity.
Qed.

(** ** The composer, step by step *)

Ltac bind_inv H :=
  let a := fresh "a" in
  let w := fresh "w" in
  let E := fresh "E" in
  apply bind_ok_inv in H; destruct H as (a & w & E & H).

Ltac ret_inv H :=
  unfold ret in H; injection H as H ?; subst.

Section Composer.
Context {World : Type}.
Context `{JsonParser} `{OsEnv World} `{StaticSections World}.
Implicit Types (cwd : string) (mcpHub : McpHub World) (w : World).

Lemma base_sections_ok cwd flag mcpHub w sections w' :
  base_sections cwd flag mcpHub w = (Ok sections, w') ->
  exists capabilities w1 mcpServers w2 systemInfo w3 mcpCreation,
    getCapabilitiesPrompt cwd flag mcpHub w = (Ok capabilities, w1) /\
    getMcpServersPrompt mcpHub w1 = (Ok mcpServers, w2) /\
    getSystemInfoPrompt cwd w2 = (Ok systemInfo, w3) /\
    getMcpCreationPrompt mcpHub w3 = (Ok mcpCreation, w') /\
    sections = section_list cwd flag [] capabilities mcpServers systemInfo mcpCreation.
Proof.
  unfold base_sections. intros Hrun.
  bind_inv Hrun. bind_inv Hrun. bind_inv Hrun. bind_inv Hrun. ret_inv Hrun.
  repeat eexists; eauto.
Qed.

Lemma splice_browser cwd flag (browser : string) capabilities mcpServers systemInfo mcpCreation :
  splice (section_list cwd flag [] capabilities mcpServers systemInfo mcpCreation) 3 0 [browser]
  = section_list cwd flag [browser] capabilities mcpServers systemInfo mcpCreation.
Proof. reflexivity. Qed.

Lemma prompt_sections_ok cwd flag mcpHub browserSettings w sections w' :
  prompt_sections cwd flag mcpHub browserSettings w = (Ok sections, w') ->
  exists capabilities w1 mcpServers w2 systemInfo w3 mcpCreation,
    getCapabilitiesPrompt cwd flag mcpHub w = (Ok capabilities, w1) /\
    getMcpServersPrompt mcpHub w1 = (Ok mcpServers, w2) /\
    getSystemInfoPrompt cwd w2 = (Ok systemInfo, w3) /\
    getMcpCreationPrompt mcpHub w3 = (Ok mcpCreation, w') /\
    sections = section_list cwd flag
                 (if flag then [getBrowserActionPrompt browserSettings] else [])
                 capabilities mcpServers systemInfo mcpCreation.
Proof.
  unfold prompt_sections. intros Hrun. bind_inv Hrun. ret_inv Hrun.
  apply base_sections_ok in E as (c & w1 & s & w2 & i & w3 & m & E1 & E2 & E3 & E4 & ->).
  exists c, w1, s, w2, i, w3, m. repeat split; try assumption.
  destruct flag; [apply splice_browser | reflexivity].
Qed.

Lemma SYSTEM_PROMPT_joins cwd flag mcpHub browserSettings w :
  SYSTEM_PROMPT cwd flag mcpHub browserSettings w =
  match prompt_sections cwd flag mcpHub browserSettings w with
  | (Ok sections, w') => (Ok (join sections (nl ++ nl)), w')
  | (Err e, w') => (Err e, w')
  end.
Proof. reflexivity. Qed.

(** The tail of the document, from the editing rules on. *)
Lemma join_section_list cwd flag browser capabilities mcpServers systemInfo mcpCreation :
  exists pre,
    join (section_list cwd flag browser capabilities mcpServers systemInfo mcpCreation) (nl ++ nl)
    = pre ++ getEditingPrompt ++ (nl ++ nl) ++ mcpServers ++ (nl ++ nl) ++ systemInfo
          ++ (nl ++ nl) ++ getObjectivePrompt ++ (nl ++ nl) ++ getRulesPrompt cwd flag
          ++ (nl ++ nl) ++ mcpCreation.
Proof.
  unfold section_list.
  set (tail := [getEditingPrompt; mcpServers; systemInfo; getObjectivePrompt;
                getRulesPrompt cwd flag; mcpCreation]).
  set (sep := nl ++ nl).
  match goal with
  | |- exists pre, join (?a ++ ?b ++ ?c)%list _ = _ =>
      assert (E : (a ++ b ++ c)%list = ((a ++ b ++ firstn 13 c) ++ tail)%list)
  end.
  { now rewrite <- !app_assoc. }
  rewrite E, join_app by (subst tail; discriminate || (destruct browser; discriminate)).
  eexists (_ ++ sep). rewrite append_assoc. f_equal.
Qed.

End Composer.

(** ** The providers that query the registry and the system *)

Section Providers.
Context {World : Type}.
Context `{JsonParser} `{OsEnv World}.
Implicit Types (mcpHub : McpHub World) (w : World).

Lemma getMcpServersPrompt_ok mcpHub w text w' :
  getMcpServersPrompt mcpHub w = (Ok text, w') ->
  exists mcpMode w1,
    getMode mcpHub w = (Ok mcpMode, w1) /\
    ((mcpMode = "off" /\ text = "" /\ w' = w1) \/
     (mcpMode <> "off" /\
      exists servers blocks,
        getServers mcpHub w1 = (Ok servers, w') /\
        map_result render_server (filter is_connected servers) = Ok blocks /\
        text = mcp_servers_text (js_or (join blocks (nl ++ nl)) no_servers_connected))).
Proof.
  unfold getMcpServersPrompt. intros Hrun. bind_inv Hrun.
  exists a, w0. split; [exact E|].
  destruct (String.eqb_spec a "off") as [->|Hmode].
  - left. ret_inv Hrun. auto.
  - right. split; [exact Hmode|].
    bind_inv Hrun. bind_inv Hrun. ret_inv Hrun.
    unfold lift in E1. injection E1 as E1 <-.
    exists a0, a1. auto.
Qed.

Lemma getMcpCreationPrompt_ok mcpHub w text w' :
  getMcpCreationPrompt mcpHub w = (Ok text, w') ->
  exists mcpServersPath w1 mcpSettingsFilePath w2 servers,
    getMcpServersPath mcpHub w = (Ok mcpServersPath, w1) /\
    getMcpSettingsFilePath mcpHub w1 = (Ok mcpSettingsFilePath, w2) /\
    getServers mcpHub w2 = (Ok servers, w') /\
    text = mcp_creation_text mcpServersPath mcpSettingsFilePath
             (js_or (join (map McpServer.name (filter is_connected servers)) ", ") none_running).
Proof.
  unfold getMcpCreationPrompt. intros Hrun.
  bind_inv Hrun. bind_inv Hrun. bind_inv Hrun. ret_inv Hrun.
  repeat eexists; eauto.
Qed.

Lemma returns_ret {A : Type} (a : A) : returns (@ret World A a) a.
Proof. now intros w. Qed.

Lemma returns_bind {A B : Type} (m : M World A) (k : A -> M World B) a b :
  returns m a -> returns (k a) b -> returns (bind m k) b.
Proof.
  intros Rm Rk w. rewrite (bind_returns m k a w Rm). apply Rk.
Qed.

Lemma returns_unique {A : Type} (m : M World A) a w b w' :
  returns m a -> m w = (Ok b, w') -> b = a.
Proof.
  intros R E. specialize (R w). rewrite E in R. simpl in R. congruence.
Qed.

Lemma getMcpServersPrompt_off mcpHub :
  returns (getMode mcpHub) "off" -> returns (getMcpServersPrompt mcpHub) "".
Proof.
  intros Rmode. unfold getMcpServersPrompt.
  eapply returns_bind; [exact Rmode|]. apply returns_ret.
Qed.

Lemma getMcpServersPrompt_returns mcpHub mcpMode servers blocks :
  returns (getMode mcpHub) mcpMode -> mcpMode <> "off" ->
  returns (getServers mcpHub) servers ->
  map_result render_server (filter is_connected servers) = Ok blocks ->
  returns (getMcpServersPrompt mcpHub)
          (mcp_servers_text (js_or (join blocks (nl ++ nl)) no_servers_connected)).
Proof.
  intros Rmode Hmode Rservers Hblocks. unfold getMcpServersPrompt.
  eapply returns_bind; [exact Rmode|].
  apply String.eqb_neq in Hmode. rewrite Hmode.
  eapply returns_bind; [exact Rservers|].
  rewrite Hblocks. eapply returns_bind; [|apply returns_ret]. now intros w.
Qed.

Lemma getMcpCreationPrompt_returns mcpHub mcpServersPath mcpSettingsFilePath servers :
  returns (getMcpServersPath mcpHub) mcpServersPath ->
  returns (getMcpSettingsFilePath mcpHub) mcpSettingsFilePath ->
  returns (getServers mcpHub) servers ->
  returns (getMcpCreationPrompt mcpHub)
          (mcp_creation_text mcpServersPath mcpSettingsFilePath
             (js_or (join (map McpServer.name (filter is_connected servers)) ", ") none_running)).
Proof.
  intros R1 R2 R3. unfold getMcpCreationPrompt.
  eapply returns_bind; [exact R1|]. eapply returns_bind; [exact R2|].
  eapply returns_bind; [exact R3|]. apply returns_ret.
Qed.

Lemma getSystemInfoPrompt_returns cwd os shell home :
  returns osName os -> returns getShell shell -> returns os_homedir home ->
  returns (getSystemInfoPrompt cwd) (system_info_text os shell home cwd).
Proof.
  intros R1 R2 R3. unfold getSystemInfoPrompt.
  eapply returns_bind; [exact R1|]. eapply returns_bind; [exact R2|].
  eapply returns_bind; [exact R3|]. apply returns_ret.
Qed.

(** With no connected server the two registry sections carry their placeholders. *)
Lemma placeholders_when_none_connected mcpHub mcpMode servers mcpServersPath mcpSettingsFilePath :
  returns (getMode mcpHub) mcpMode -> mcpMode <> "off" ->
  returns (getServers mcpHub) servers ->
  filter is_connected servers = [] ->
  returns (getMcpServersPath mcpHub) mcpServersPath ->
  returns (getMcpSettingsFilePath mcpHub) mcpSettingsFilePath ->
  returns (getMcpServersPrompt mcpHub) (mcp_servers_text no_servers_connected) /\
  returns (getMcpCreationPrompt mcpHub)
          (mcp_creation_text mcpServersPath mcpSettingsFilePath none_running).
Proof.
  intros Rmode Hmode Rservers Hnone R1 R2. split.
  - apply (getMcpServersPrompt_returns mcpHub mcpMode servers []); try assumption.
    now rewrite Hnone.
  - pose proof (getMcpCreationPrompt_returns mcpHub _ _ _ R1 R2 Rservers) as R.
    now rewrite Hnone in R.
Qed.

End Providers.

Lemma map_result_throws {A B : Type} (f : A -> result B) (l : list A) (x : A) :
  In x l -> is_ok (f x) = false -> is_ok (map_result f l) = false.
Proof.
  intros Hin Hx. induction l as [|y l IH]; [contradiction|].
  simpl. destruct Hin as [->|Hin].
  - destruct (f x); [discriminate | reflexivity].
  - destruct (f y); [|reflexivity]. simpl.
    specialize (IH Hin). destruct (map_result f l); [discriminate | reflexivity].
Qed.

Lemma array_join_strings (argv : list string) (sep : string) :
  array_join (map JString argv) sep = Ok (join argv sep).
Proof.
  unfold array_join.
  assert (E : map_result (fun x => match x with JNull => Ok "" | _ => ToString x end)
                         (map JString argv) = Ok argv).
  { induction argv as [|a argv IH]; [reflexivity|]. simpl. now rewrite IH. }
  now rewrite E.
Qed.

Section Runs.
Context {World : Type}.
Context `{JsonParser} `{OsEnv World} `{StaticSections World}.

Lemma SYSTEM_PROMPT_returns cwd flag (mcpHub : McpHub World) browserSettings
    capabilities mcpServers systemInfo mcpCreation :
  returns (getCapabilitiesPrompt cwd flag mcpHub) capabilities ->
  returns (getMcpServersPrompt mcpHub) mcpServers ->
  returns (getSystemInfoPrompt cwd) systemInfo ->
  returns (getMcpCreationPrompt mcpHub) mcpCreation ->
  returns (SYSTEM_PROMPT cwd flag mcpHub browserSettings)
          (join (section_list cwd flag
                   (if flag then [getBrowserActionPrompt browserSettings] else [])
                   capabilities mcpServers systemInfo mcpCreation) (nl ++ nl)).
Proof.
  intros R1 R2 R3 R4.
  assert (R : returns (base_sections cwd flag mcpHub)
                (section_list cwd flag [] capabilities mcpServers systemInfo mcpCreation)).
  { unfold base_sections.
    eapply returns_bind; [exact R1|]. eapply returns_bind; [exact R2|].
    eapply returns_bind; [exact R3|]. eapply returns_bind; [exact R4|].
    apply returns_ret. }
  unfold SYSTEM_PROMPT, prompt_sections.
  eapply returns_bind; [eapply returns_bind; [exact R | apply returns_ret]|].
  destruct flag; apply returns_ret.
Qed.

End Runs.

(** ** Paths in the texts of the providers *)

Lemma no_backslash_append (a b : string) :
  no_backslash (a ++ b) = no_backslash a && no_backslash b.
Proof.
  unfold no_backslash. induction a as [|c a IH]; [reflexivity|].
  cbn [append string_forallb]. now rewrite IH, andb_assoc.
Qed.

Lemma no_backslash_join (l : list string) (sep : string) :
  no_backslash sep = true -> no_backslash (join l sep) = forallb no_backslash l.
Proof.
  intros Hsep. induction l as [|x l IH]; [reflexivity|].
  destruct l as [|y l].
  - cbn [forallb]. now rewrite join_one, andb_true_r.
  - rewrite join_cons, !no_backslash_append, Hsep, IH. reflexivity.
Qed.

Lemma no_backslash_append_true (a b : string) :
  no_backslash a = true -> no_backslash b = true -> no_backslash (a ++ b) = true.
Proof. intros Ha Hb. now rewrite no_backslash_append, Ha, Hb. Qed.

Ltac clean_text :=
  lazymatch goal with
  | |- no_backslash (toPosix _) = true => apply toPosix_no_backslash
  | |- no_backslash (_ ++ _) = true => apply no_backslash_append_true; clean_text
  | |- _ => first [assumption | vm_compute; reflexivity]
  end.

Ltac clean_lines :=
  unfold lines; rewrite no_backslash_join by reflexivity; cbn [forallb];
  repeat match goal with
         | |- (_ && _)%bool = true => apply andb_true_intro; split
         end;
  clean_text.

(** The rules section shows the working directory in forward-slash form. *)
Lemma rules_no_backslash (cwd : string) (supportsComputerUse : bool) :
  no_backslash (getRulesPrompt cwd supportsComputerUse) = true.
Proof.
  unfold getRulesPrompt.
  apply no_backslash_append_true; [clean_lines|].
  apply no_backslash_append_true; [now destruct supportsComputerUse|].
  apply no_backslash_append_true; [vm_compute; reflexivity|].
  apply no_backslash_append_true; [now destruct supportsComputerUse|].
  vm_compute; reflexivity.
Qed.

(** So does the system information section, for the working directory and
    the home directory. *)
Lemma system_info_no_backslash (os shell home cwd : string) :
  no_backslash os = true -> no_backslash shell = true ->
  no_backslash (system_info_text os shell home cwd) = true.
Proof.
  intros Hos Hshell. unfold system_info_text. clean_lines.
Qed.

(** The MCP creation section shows the two registry paths as they come. *)
Lemma creation_keeps_backslash (mcpServersPath mcpSettingsFilePath connectedServers : string) :
  no_backslash mcpServersPath = false ->
  no_backslash (mcp_creation_text mcpServersPath mcpSettingsFilePath connectedServers) = false.
Proof.
  intros Hpath. unfold mcp_creation_text, lines.
  rewrite no_backslash_join by reflexivity.
  apply not_true_is_false. intros Hall.
  rewrite forallb_forall in Hall.
  specialize (Hall ("Unless the user specifies otherwise, new MCP servers should be created in: "
                    ++ mcpServersPath)).
  rewrite no_backslash_append, Hpath, andb_false_r in Hall.
  discriminate Hall. do 7 right. left. reflexivity.
Qed.

(** * The claims *)

Section Claims.
Context {World : Type}.
Context `{JsonParser} `{OsEnv World} `{StaticSections World}.
Implicit Types (cwd : string) (mcpHub : McpHub World) (w : World).

(** C1.  Whatever the capability flags, an assembled document is the join of
    the sections in the order of the array literal.  With the automation
    flag set there are 23 sections and the browser_action section is the
    one right after the execute-command section, in the array (index 3
    after index 2) and in the text; with the flag unset there are 22
    sections, the array has no entry for it, not even an empty one, and
    the execute-command section is followed directly by the next base
    section.  In both cases the MCP servers section comes right after the
    editing section and before the rules section. *)
Theorem C1_section_order cwd supportsComputerUse mcpHub browserSettings w sections w' :
  prompt_sections cwd supportsComputerUse mcpHub browserSettings w = (Ok sections, w') ->
  let document := join sections (nl ++ nl) in
  SYSTEM_PROMPT cwd supportsComputerUse mcpHub browserSettings w = (Ok document, w') /\
  exists capabilities mcpServers systemInfo mcpCreation w1 w2,
    getMcpServersPrompt mcpHub w1 = (Ok mcpServers, w2) /\
    sections = section_list cwd supportsComputerUse
                 (if supportsComputerUse then [getBrowserActionPrompt browserSettings] else [])
                 capabilities mcpServers systemInfo mcpCreation /\
    (if supportsComputerUse
     then length sections = 23 /\
          nth_error sections 2 = Some (getExecuteCommandPrompt cwd) /\
          nth_error sections 3 = Some (getBrowserActionPrompt browserSettings) /\
          nth_error sections 4 = Some (getListCodeDefinitionNamesPrompt cwd) /\
          nth_error sections 17 = Some getEditingPrompt /\
          nth_error sections 18 = Some mcpServers /\
          nth_error sections 21 = Some (getRulesPrompt cwd true) /\
          occurs_in (getExecuteCommandPrompt cwd ++ (nl ++ nl)
                     ++ getBrowserActionPrompt browserSettings ++ (nl ++ nl)
                     ++ getListCodeDefinitionNamesPrompt cwd) document
     else length sections = 22 /\
          nth_error sections 2 = Some (getExecuteCommandPrompt cwd) /\
          nth_error sections 3 = Some (getListCodeDefinitionNamesPrompt cwd) /\
          nth_error sections 16 = Some getEditingPrompt /\
          nth_error sections 17 = Some mcpServers /\
          nth_error sections 20 = Some (getRulesPrompt cwd false) /\
          occurs_in (getExecuteCommandPrompt cwd ++ (nl ++ nl)
                     ++ getListCodeDefinitionNamesPrompt cwd) document) /\
    exists pre,
      document = pre ++ getEditingPrompt ++ (nl ++ nl) ++ mcpServers ++ (nl ++ nl) ++ systemInfo
                     ++ (nl ++ nl) ++ getObjectivePrompt ++ (nl ++ nl)
                     ++ getRulesPrompt cwd supportsComputerUse ++ (nl ++ nl) ++ mcpCreation.
Proof.
  intros Hrun document. split.
  - rewrite SYSTEM_PROMPT_joins, Hrun. reflexivity.
  - apply prompt_sections_ok in Hrun
      as (c & w1 & s & w2 & i & w3 & m & E1 & E2 & E3 & E4 & Hsections).
    exists c, s, i, m, w1, w2. split; [exact E2|]. split; [exact Hsections|].
    subst document sections. split; [|apply join_section_list].
    destruct supportsComputerUse; repeat (split; [reflexivity|]).
    + exists (getBasePrompt ++ (nl ++ nl) ++ getToolUsePrompt ++ (nl ++ nl)).
      exists ((nl ++ nl) ++ join (skipn 5 (section_list cwd true
                [getBrowserActionPrompt browserSettings] c s i m)) (nl ++ nl)).
      rewrite !append_assoc. reflexivity.
    + exists (getBasePrompt ++ (nl ++ nl) ++ getToolUsePrompt ++ (nl ++ nl)).
      exists ((nl ++ nl) ++ join (skipn 4 (section_list cwd false [] c s i m)) (nl ++ nl)).
      rewrite !append_assoc. reflexivity.
Qed.

Lemma rules_differ cwd : getRulesPrompt cwd true <> getRulesPrompt cwd false.
Proof.
  intros E. apply (f_equal String.length) in E.
  unfold getRulesPrompt in E. cbv beta iota in E.
  rewrite !length_append in E.
  assert (L : String.length rules_browser_example = 159) by (vm_compute; reflexivity).
  rewrite L in E. simpl (String.length "") in E. lia.
Qed.

(** C2 (amended).  Toggling the automation flag, everything else fixed,
    changes three things: the browser_action section is present or absent,
    the rules section carries two more passages, and the capabilities
    provider is called with the other flag.  Once the browser_action entry
    is taken out, the two arrays agree at every index but 15
    (capabilities) and 20 (rules), and the two rules texts are never
    equal.  The capabilities provider is assumed to leave the world in the
    same state under both flags. *)
Theorem C2_flag_changes_rules_too cwd mcpHub browserSettings w sectionsOn wOn sectionsOff wOff :
  snd (getCapabilitiesPrompt cwd true mcpHub w) = snd (getCapabilitiesPrompt cwd false mcpHub w) ->
  prompt_sections cwd true mcpHub browserSettings w = (Ok sectionsOn, wOn) ->
  prompt_sections cwd false mcpHub browserSettings w = (Ok sectionsOff, wOff) ->
  nth_error sectionsOn 3 = Some (getBrowserActionPrompt browserSettings) /\
  length sectionsOn = S (length sectionsOff) /\
  (forall i, i <> 15 -> i <> 20 ->
     nth_error (splice sectionsOn 3 1 []) i = nth_error sectionsOff i) /\
  nth_error (splice sectionsOn 3 1 []) 20 = Some (getRulesPrompt cwd true) /\
  nth_error sectionsOff 20 = Some (getRulesPrompt cwd false) /\
  getRulesPrompt cwd true <> getRulesPrompt cwd false /\
  wOn = wOff.
Proof.
  intros Hworld Hon Hoff.
  apply prompt_sections_ok in Hon
    as (c1 & u1 & s1 & u2 & i1 & u3 & m1 & A1 & A2 & A3 & A4 & ->).
  apply prompt_sections_ok in Hoff
    as (c2 & v1 & s2 & v2 & i2 & v3 & m2 & B1 & B2 & B3 & B4 & ->).
  rewrite A1, B1 in Hworld. simpl in Hworld. subst v1.
  rewrite A2 in B2. injection B2 as <- <-.
  rewrite A3 in B3. injection B3 as <- <-.
  rewrite A4 in B4. injection B4 as <- <-.
  repeat split; try reflexivity.
  - intros i H15 H20.
    do 22 (destruct i as [|i]; [reflexivity || congruence|]).
    reflexivity.
  - apply rules_differ.
Qed.

(** C3 (amended).  The composer joins every entry of the array, empty or
    not; nothing is filtered.  With registry integration off the MCP
    servers section is the empty string, it keeps its place in the array
    (index 17, or 18 behind the browser_action section), and the document
    has two separators in a row between the editing section and the
    system information section. *)
Theorem C3_empty_section_keeps_its_separators
    cwd supportsComputerUse mcpHub browserSettings w document w' :
  returns (getMode mcpHub) "off" ->
  SYSTEM_PROMPT cwd supportsComputerUse mcpHub browserSettings w = (Ok document, w') ->
  exists sections systemInfo,
    prompt_sections cwd supportsComputerUse mcpHub browserSettings w = (Ok sections, w') /\
    document = join sections (nl ++ nl) /\
    length sections = (if supportsComputerUse then 23 else 22) /\
    nth_error sections (if supportsComputerUse then 17 else 16) = Some getEditingPrompt /\
    nth_error sections (if supportsComputerUse then 18 else 17) = Some "" /\
    nth_error sections (if supportsComputerUse then 19 else 18) = Some systemInfo /\
    occurs_in (getEditingPrompt ++ (nl ++ nl) ++ (nl ++ nl) ++ systemInfo) document.
Proof.
  intros Roff Hrun. rewrite SYSTEM_PROMPT_joins in Hrun.
  destruct (prompt_sections cwd supportsComputerUse mcpHub browserSettings w)
    as [[sections|e] w0] eqn:Hsections; [|discriminate].
  injection Hrun as <- <-.
  exists sections.
  apply prompt_sections_ok in Hsections
    as (c & w1 & s & w2 & i & w3 & m & E1 & E2 & E3 & E4 & ->).
  assert (s = "") as ->
    by exact (returns_unique _ _ _ _ _ (getMcpServersPrompt_off mcpHub Roff) E2).
  exists i. split; [reflexivity|]. split; [reflexivity|].
  split; [now destruct supportsComputerUse|].
  split; [now destruct supportsComputerUse|].
  split; [now destruct supportsComputerUse|].
  split; [now destruct supportsComputerUse|].
  change (String "010"%char nl) with (nl ++ nl).
  destruct (join_section_list cwd supportsComputerUse
              (if supportsComputerUse then [getBrowserActionPrompt browserSettings] else [])
              c "" i m) as (pre & ->).
  exists pre.
  exists ((nl ++ nl) ++ getObjectivePrompt ++ (nl ++ nl)
          ++ getRulesPrompt cwd supportsComputerUse ++ (nl ++ nl) ++ m).
  change ("" ++ ?x) with x. now rewrite !append_assoc.
Qed.

(** C4 (amended).  A failure of the registry is not absorbed: when any of
    the hub's operations throws or rejects, the assemble operation fails
    and returns no document.  (The placeholders are what the two registry
    sections show when the registry answers and no server is connected,
    see [placeholders_when_none_connected].) *)
Theorem C4_registry_failure_propagates cwd supportsComputerUse mcpHub browserSettings w :
  fails (getMode mcpHub) \/ fails (getServers mcpHub) \/
  fails (getMcpServersPath mcpHub) \/ fails (getMcpSettingsFilePath mcpHub) ->
  is_ok (fst (SYSTEM_PROMPT cwd supportsComputerUse mcpHub browserSettings w)) = false.
Proof.
  intros Hfail. rewrite SYSTEM_PROMPT_joins.
  destruct (prompt_sections cwd supportsComputerUse mcpHub browserSettings w)
    as [[sections|e] w0] eqn:Hsections; [exfalso | reflexivity].
  apply prompt_sections_ok in Hsections
    as (c & w1 & s & w2 & i & w3 & m & E1 & E2 & E3 & E4 & _).
  apply getMcpServersPrompt_ok in E2 as (mcpMode & u1 & Emode & _).
  apply getMcpCreationPrompt_ok in E4 as (p & v1 & q & v2 & l & Epath & Esettings & Eservers & _).
  destruct Hfail as [F|[F|[F|F]]];
    eapply fails_not_ok; try exact F; eassumption.
Qed.

Lemma registry_sections_connected_only mcpHub (g : list McpServer.t -> list McpServer.t) w :
  (forall servers, filter is_connected (g servers) = filter is_connected servers) ->
  getMcpServersPrompt (with_servers g mcpHub) w = getMcpServersPrompt mcpHub w /\
  getMcpCreationPrompt (with_servers g mcpHub) w = getMcpCreationPrompt mcpHub w.
Proof.
  intros Hg. unfold getMcpServersPrompt, getMcpCreationPrompt, with_servers, bind, ret, lift.
  cbn [getMode getServers getMcpServersPath getMcpSettingsFilePath].
  split.
  - destruct (getMode mcpHub w) as [[mcpMode|e] w1]; [|reflexivity].
    destruct (mcpMode =? "off"); [reflexivity|].
    destruct (getServers mcpHub w1) as [[servers|e] w2]; [|reflexivity].
    now rewrite Hg.
  - destruct (getMcpServersPath mcpHub w) as [[p|e] w1]; [|reflexivity].
    destruct (getMcpSettingsFilePath mcpHub w1) as [[q|e] w2]; [|reflexivity].
    destruct (getServers mcpHub w2) as [[servers|e] w3]; [|reflexivity].
    now rewrite Hg.
Qed.

(** C6.  Only the connected entries of the registry are rendered: the MCP
    servers section and the MCP creation section of a registry are those
    of any registry with the same connected entries, whatever is added,
    removed or changed among the entries that are connecting or failed.
    Such entries leave no trace in either text, no annotation included.
    The whole document is the same as well, as far as the capabilities
    provider, the one other reader of the hub, does not tell the two
    registries apart. *)
Theorem C6_only_connected_servers_rendered mcpHub (g : list McpServer.t -> list McpServer.t) w :
  (forall servers, filter is_connected (g servers) = filter is_connected servers) ->
  getMcpServersPrompt (with_servers g mcpHub) w = getMcpServersPrompt mcpHub w /\
  getMcpCreationPrompt (with_servers g mcpHub) w = getMcpCreationPrompt mcpHub w /\
  forall cwd supportsComputerUse browserSettings,
    (forall w0, getCapabilitiesPrompt cwd supportsComputerUse (with_servers g mcpHub) w0
                = getCapabilitiesPrompt cwd supportsComputerUse mcpHub w0) ->
    SYSTEM_PROMPT cwd supportsComputerUse (with_servers g mcpHub) browserSettings w
    = SYSTEM_PROMPT cwd supportsComputerUse mcpHub browserSettings w.
Proof.
  intros Hg.
  split; [apply (registry_sections_connected_only mcpHub g w Hg)|].
  split; [apply (registry_sections_connected_only mcpHub g w Hg)|].
  intros cwd flag browserSettings Hcap.
  unfold SYSTEM_PROMPT, prompt_sections, base_sections, bind.
  rewrite Hcap.
  destruct (getCapabilitiesPrompt cwd flag mcpHub w) as [[c|e] w1]; [|reflexivity].
  rewrite (proj1 (registry_sections_connected_only mcpHub g w1 Hg)).
  destruct (getMcpServersPrompt mcpHub w1) as [[s|e] w2]; [|reflexivity].
  destruct (getSystemInfoPrompt cwd w2) as [[i|e] w3]; [|reflexivity].
  rewrite (proj2 (registry_sections_connected_only mcpHub g w3 Hg)).
  reflexivity.
Qed.


Lemma render_server_texts (server : McpServer.t) (config : json) (command args : string) :
  JSON_parse (McpServer.config server) = Some config ->
  command_text config = Ok command ->
  arguments_text config = Ok args ->
  render_server server
  = Ok (server_block (McpServer.name server) command args
          (tools_text (McpServer.tools server))).
Proof.
  intros Hparse Hcommand Hargs. unfold render_server. rewrite Hparse.
  unfold command_text in Hcommand. unfold arguments_text in Hargs.
  destruct (get_property config "command") as [c|]; [|discriminate]. cbn [rbind] in *.
  rewrite Hcommand. cbn [rbind].
  destruct (get_property config "args") as [a|]; [|discriminate]. cbn [rbind] in *.
  now rewrite Hargs.
Qed.

(** C8 (amended).  The example scenario, for a configuration of alpha that
    renders.  Automation flag unset, registry integration enabled (any
    mode but off), the only connected entry of the registry being the
    server alpha with the single tool fetch, described as retrieves a
    URL, and the configuration of alpha being JSON whose [command] and
    [args] turn into the texts [command] and [args] (an object with a
    string command and an array of strings, say, whatever its other keys
    and their order): the document is the join of the 22 base sections in
    their fixed order, with no browser_action section among them; its MCP
    servers section lists one server block, headed alpha with that
    command and those arguments, whose tool list is the one line for
    fetch, and its MCP creation section names alpha. *)
Theorem C8_alpha_listed cwd mcpHub browserSettings w mcpMode servers
    text config command args capabilities mcpServersPath mcpSettingsFilePath os shell home :
  returns (getCapabilitiesPrompt cwd false mcpHub) capabilities ->
  returns (getMode mcpHub) mcpMode -> mcpMode <> "off" ->
  returns (getServers mcpHub) servers ->
  filter is_connected servers
    = [McpServer.mk "alpha" text "connected"
                    (Some [McpTool.mk "fetch" "retrieves a URL"])] ->
  JSON_parse text = Some config ->
  command_text config = Ok command ->
  arguments_text config = Ok args ->
  returns (getMcpServersPath mcpHub) mcpServersPath ->
  returns (getMcpSettingsFilePath mcpHub) mcpSettingsFilePath ->
  returns osName os -> returns getShell shell -> returns os_homedir home ->
  fst (SYSTEM_PROMPT cwd false mcpHub browserSettings w)
  = Ok (join
          [ getBasePrompt;
            getToolUsePrompt;
            getExecuteCommandPrompt cwd;
            getListCodeDefinitionNamesPrompt cwd;
            getListFilesPrompt cwd;
            getReadFilePrompt cwd;
            getReplaceInFilePrompt cwd;
            getSearchFilesPrompt cwd;
            getWriteToFilePrompt cwd;
            getAskFollowupQuestionPrompt;
            getAttemptCompletionPrompt;
            getPlanModeResponsePrompt;
            getUseMcpToolPrompt;
            getAccessMcpResourcePrompt;
            getModesPrompt;
            capabilities;
            getEditingPrompt;
            mcp_servers_text
              ("## alpha (`" ++ command ++ " " ++ args ++ "`)" ++ nl ++ nl
               ++ "### Available Tools" ++ nl ++ "- fetch: retrieves a URL");
            system_info_text os shell home cwd;
            getObjectivePrompt;
            getRulesPrompt cwd false;
            mcp_creation_text mcpServersPath mcpSettingsFilePath "alpha" ]
          (nl ++ nl)).
Proof.
  intros Rcap Rmode Hmode Rservers Hconnected Hparse Hcommand Hargs
         Rpath Rsettings Ros Rshell Rhome.
  apply (SYSTEM_PROMPT_returns cwd false mcpHub browserSettings); try assumption.
  - eapply (getMcpServersPrompt_returns mcpHub mcpMode servers
              [server_block "alpha" command args "- fetch: retrieves a URL"]);
      try eassumption.
    rewrite Hconnected. cbn [map_result].
    rewrite (render_server_texts
               (McpServer.mk "alpha" text "connected"
                             (Some [McpTool.mk "fetch" "retrieves a URL"]))
               config command args Hparse Hcommand Hargs).
    reflexivity.
  - now apply getSystemInfoPrompt_returns.
  - pose proof (getMcpCreationPrompt_returns mcpHub _ _ _ Rpath Rsettings Rservers) as R.
    now rewrite Hconnected in R.
Qed.

(** The outcome of a call with a working directory: it fails exactly when
    one of its four effectful providers (capabilities, MCP servers, system
    information, MCP creation) fails, with that provider's own error;
    otherwise the four ran in this order and the document is the join of
    the sections. *)
Lemma SYSTEM_PROMPT_outcome cwd supportsComputerUse mcpHub browserSettings w :
  match fst (SYSTEM_PROMPT cwd supportsComputerUse mcpHub browserSettings w) with
  | Ok document =>
      exists capabilities w1 mcpServers w2 systemInfo w3 mcpCreation w4,
        getCapabilitiesPrompt cwd supportsComputerUse mcpHub w = (Ok capabilities, w1) /\
        getMcpServersPrompt mcpHub w1 = (Ok mcpServers, w2) /\
        getSystemInfoPrompt cwd w2 = (Ok systemInfo, w3) /\
        getMcpCreationPrompt mcpHub w3 = (Ok mcpCreation, w4) /\
        document = join (section_list cwd supportsComputerUse
                           (if supportsComputerUse
                            then [getBrowserActionPrompt browserSettings] else [])
                           capabilities mcpServers systemInfo mcpCreation) (nl ++ nl)
  | Err e =>
      exists w1,
        fst (getCapabilitiesPrompt cwd supportsComputerUse mcpHub w1) = Err e \/
        fst (getMcpServersPrompt mcpHub w1) = Err e \/
        fst (getSystemInfoPrompt cwd w1) = Err e \/
        fst (getMcpCreationPrompt mcpHub w1) = Err e
  end.
Proof.
  rewrite SYSTEM_PROMPT_joins. unfold prompt_sections, base_sections, bind.
  destruct (getCapabilitiesPrompt cwd supportsComputerUse mcpHub w) as [[c|e] w1] eqn:E1;
    [|exists w; left; now rewrite E1].
  destruct (getMcpServersPrompt mcpHub w1) as [[s|e] w2] eqn:E2;
    [|exists w1; right; left; now rewrite E2].
  destruct (getSystemInfoPrompt cwd w2) as [[i|e] w3] eqn:E3;
    [|exists w2; right; right; left; now rewrite E3].
  destruct (getMcpCreationPrompt mcpHub w3) as [[m|e] w4] eqn:E4;
    [|exists w3; right; right; right; now rewrite E4].
  exists c, w1, s, w2, i, w3, m, w4. repeat (split; [reflexivity|]).
  now destruct supportsComputerUse.
Qed.

(** C10 (amended).  When registry integration is not off, a connected
    server whose configuration text is not JSON makes the MCP servers
    provider throw, and the assemble operation with it.  (With integration
    off the provider returns before any configuration is parsed.) *)
Theorem C10_malformed_config_throws mcpHub mcpMode servers server w :
  returns (getMode mcpHub) mcpMode -> mcpMode <> "off" ->
  returns (getServers mcpHub) servers ->
  In server servers -> is_connected server = true ->
  JSON_parse (McpServer.config server) = None ->
  is_ok (fst (getMcpServersPrompt mcpHub w)) = false /\
  forall cwd supportsComputerUse browserSettings,
    is_ok (fst (SYSTEM_PROMPT cwd supportsComputerUse mcpHub browserSettings w)) = false.
Proof.
  intros Rmode Hmode Rservers Hin Hconnected Hparse.
  assert (F : fails (getMcpServersPrompt mcpHub)).
  { intros w0. destruct (getMcpServersPrompt mcpHub w0) as [[text|e] w1] eqn:E; [|reflexivity].
    exfalso.
    apply getMcpServersPrompt_ok in E as (m & u1 & Emode & [(-> & _)|(_ & l & blocks & El & Eb & _)]).
    - apply Hmode. symmetry. exact (returns_unique _ _ _ _ _ Rmode Emode).
    - assert (l = servers) as -> by exact (returns_unique _ _ _ _ _ Rservers El).
      assert (T : is_ok (map_result render_server (filter is_connected servers)) = false).
      { apply (map_result_throws _ _ server).
        - apply filter_In. now split.
        - unfold render_server. now rewrite Hparse. }
      now rewrite Eb in T. }
  split; [apply F|].
  intros cwd flag browserSettings. rewrite SYSTEM_PROMPT_joins.
  destruct (prompt_sections cwd flag mcpHub browserSettings w)
    as [[sections|e] w0] eqn:Hsections; [exfalso | reflexivity].
  apply prompt_sections_ok in Hsections
    as (c & w1 & s & w2 & _ & _ & _ & _ & E2 & _).
  exact (fails_not_ok _ _ _ _ F E2).
Qed.

End Claims.

Section MissingCwd.
Context {World : Type}.
Context `{JsonParser} `{OsEnv World} `{StaticSections World} `{UntypedSections World}.
Implicit Types (mcpHub : McpHub World) (w : World).

Lemma getSystemInfoPrompt_untyped_missing w :
  getSystemInfoPrompt_untyped None w
  = match osName w with
    | (Err e, w1) => (Err e, w1)
    | (Ok _, w1) =>
        match getShell w1 with
        | (Err e, w2) => (Err e, w2)
        | (Ok _, w2) =>
            match os_homedir w2 with
            | (Err e, w3) => (Err e, w3)
            | (Ok _, w3) => (Err TypeError, w3)
            end
        end
    end.
Proof.
  unfold getSystemInfoPrompt_untyped, bind, throw.
  destruct (osName w) as [[os|e] w1]; [|reflexivity].
  destruct (getShell w1) as [[shell|e] w2]; [|reflexivity].
  now destruct (os_homedir w2) as [[home|e] w3].
Qed.


End MissingCwd.

(** * Further properties of the providers and of the composer *)

Section More.
Context {World : Type}.
Context `{JsonParser} `{OsEnv World} `{StaticSections World}.
Implicit Types (cwd : string) (mcpHub : McpHub World) (w : World).

Lemma map_result_Forall2 {A B : Type} (f : A -> result B) (l : list A) (ys : list B) :
  map_result f l = Ok ys -> Forall2 (fun x y => f x = Ok y) l ys.
Proof.
  revert ys. induction l as [|x l IH]; intros ys E; simpl in E.
  - injection E as <-. constructor.
  - destruct (f x) as [y|e] eqn:Ex; [|discriminate]. simpl in E.
    destruct (map_result f l) as [ys'|e]; [|discriminate]. simpl in E.
    injection E as <-. constructor; [exact Ex | now apply IH].
Qed.

Lemma map_result_first_error {A B : Type} (f : A -> result B)
    (good : list A) (bad : A) (rest : list A) (ys : list B) (e : error) :
  map_result f good = Ok ys -> f bad = Err e ->
  map_result f (good ++ bad :: rest)%list = Err e.
Proof.
  revert ys. induction good as [|x good IH]; intros ys Egood Ebad; simpl in *.
  - now rewrite Ebad.
  - destruct (f x) as [y|e0]; [|discriminate]. simpl in *.
    destruct (map_result f good) as [ys'|e0]; [|discriminate].
    now rewrite (IH ys' eq_refl Ebad).
Qed.

Lemma mcp_servers_text_nonempty (connectedServers : string) :
  mcp_servers_text connectedServers <> "".
Proof.
  unfold mcp_servers_text, lines, join. cbn [String.concat]. discriminate.
Qed.

(** What the callback of [map] returns, when it returns. *)
Lemma render_server_block (server : McpServer.t) (block : string) :
  render_server server = Ok block ->
  exists command args,
    block = server_block (McpServer.name server) command args
              (tools_text (McpServer.tools server)).
Proof.
  unfold render_server. destruct (JSON_parse (McpServer.config server)) as [config|];
    [|discriminate].
  destruct (get_property config "command") as [command|]; [|discriminate]. cbn [rbind].
  destruct (template_value command) as [c|]; [|discriminate]. cbn [rbind].
  destruct (get_property config "args") as [args|]; [|discriminate]. cbn [rbind].
  destruct (args_text args) as [a|]; [|discriminate]. cbn [rbind].
  intros E. injection E as <-. now exists c, a.
Qed.

Lemma js_or_blocks (blocks : list string) (servers : list McpServer.t) :
  Forall2 (fun server block => render_server server = Ok block) servers blocks ->
  js_or (join blocks (nl ++ nl)) no_servers_connected
  = match blocks with
    | [] => no_servers_connected
    | _ :: _ => join blocks (nl ++ nl)
    end.
Proof.
  intros F. destruct F as [|server block servers blocks Hblock F]; [reflexivity|].
  apply render_server_block in Hblock as (command & args & ->).
  now destruct blocks.
Qed.

(** X1.  The MCP servers section is the empty string exactly when the mode
    the hub reports is off, and then the provider has not asked the hub for
    its servers: the world is as [getMode] left it. *)
Theorem X1_servers_section_empty_iff_off mcpHub w text w' :
  getMcpServersPrompt mcpHub w = (Ok text, w') ->
  exists mcpMode w1,
    getMode mcpHub w = (Ok mcpMode, w1) /\
    (text = "" <-> mcpMode = "off") /\
    (mcpMode = "off" -> w' = w1).
Proof.
  intros Hrun.
  apply getMcpServersPrompt_ok in Hrun
    as (mcpMode & w1 & Emode & [(-> & -> & ->)|(Hmode & servers & blocks & _ & _ & ->)]).
  - exists "off", w1. repeat split; auto.
  - exists mcpMode, w1. split; [exact Emode|]. split; [split|]; intros E.
    + now apply mcp_servers_text_nonempty in E.
    + contradiction.
    + contradiction.
Qed.

(** X2.  When the mode is not off, the MCP servers section holds one block
    per connected server, in the order of the registry, each headed by the
    server's name and closed by its tool lines, the blocks separated by a
    blank line; the placeholder stands in their place exactly when no
    server is connected. *)
Theorem X2_servers_section_blocks mcpHub w mcpMode w1 text w' :
  getMode mcpHub w = (Ok mcpMode, w1) -> mcpMode <> "off" ->
  getMcpServersPrompt mcpHub w = (Ok text, w') ->
  exists servers blocks,
    getServers mcpHub w1 = (Ok servers, w') /\
    Forall2 (fun server block =>
               exists command args,
                 block = server_block (McpServer.name server) command args
                           (tools_text (McpServer.tools server)))
            (filter is_connected servers) blocks /\
    text = mcp_servers_text
             (match blocks with
              | [] => no_servers_connected
              | _ :: _ => join blocks (nl ++ nl)
              end) /\
    (blocks = [] <-> filter is_connected servers = []).
Proof.
  intros Emode Hmode Hrun.
  apply getMcpServersPrompt_ok in Hrun
    as (m & u1 & Emode' & [(-> & _)|(_ & servers & blocks & Eservers & Eblocks & ->)]).
  - rewrite Emode in Emode'. injection Emode' as -> _. contradiction.
  - rewrite Emode in Emode'. injection Emode' as <- <-.
    apply map_result_Forall2 in Eblocks.
    exists servers, blocks. split; [exact Eservers|]. split; [|split].
    + eapply Forall2_impl; [|exact Eblocks]. intros server block. apply render_server_block.
    + now rewrite (js_or_blocks blocks _ Eblocks).
    + split; intros E; rewrite E in Eblocks; now inversion Eblocks.
Qed.

(** X3.  The callback of [map] runs over the connected servers in order and
    the first exception ends the provider: when the connected servers
    before one render and that one throws, the provider fails with that
    server's exception, whatever the servers after it would do. *)
Theorem X3_first_failing_server_decides mcpHub w mcpMode w1 servers w2 good bad rest blocks e :
  getMode mcpHub w = (Ok mcpMode, w1) -> mcpMode <> "off" ->
  getServers mcpHub w1 = (Ok servers, w2) ->
  filter is_connected servers = (good ++ bad :: rest)%list ->
  map_result render_server good = Ok blocks ->
  render_server bad = Err e ->
  getMcpServersPrompt mcpHub w = (Err e, w2).
Proof.
  intros Emode Hmode Eservers Hsplit Hgood Hbad.
  unfold getMcpServersPrompt.
  rewrite (bind_ok _ _ _ _ _ Emode).
  apply String.eqb_neq in Hmode. rewrite Hmode.
  rewrite (bind_ok _ _ _ _ _ Eservers).
  rewrite Hsplit, (map_result_first_error _ _ _ _ _ _ Hgood Hbad).
  reflexivity.
Qed.

(** A connected server that cannot be rendered takes the section and the
    document with it. *)
Lemma unrenderable_server_throws mcpHub mcpMode servers server :
  returns (getMode mcpHub) mcpMode -> mcpMode <> "off" ->
  returns (getServers mcpHub) servers ->
  In server servers -> is_connected server = true ->
  is_ok (render_server server) = false ->
  fails (getMcpServersPrompt mcpHub) /\
  forall cwd supportsComputerUse browserSettings,
    fails (SYSTEM_PROMPT cwd supportsComputerUse mcpHub browserSettings).
Proof.
  intros Rmode Hmode Rservers Hin Hconnected Hrender.
  assert (F : fails (getMcpServersPrompt mcpHub)).
  { intros w. destruct (getMcpServersPrompt mcpHub w) as [[text|e] w1] eqn:E; [|reflexivity].
    exfalso.
    apply getMcpServersPrompt_ok in E
      as (m & u1 & Emode & [(-> & _)|(_ & l & blocks & El & Eb & _)]).
    - apply Hmode. symmetry. exact (returns_unique _ _ _ _ _ Rmode Emode).
    - assert (l = servers) as -> by exact (returns_unique _ _ _ _ _ Rservers El).
      assert (T : is_ok (map_result render_server (filter is_connected servers)) = false).
      { apply (map_result_throws _ _ server); [|exact Hrender].
        apply filter_In. now split. }
      now rewrite Eb in T. }
  split; [exact F|].
  intros cwd flag browserSettings w. rewrite SYSTEM_PROMPT_joins.
  destruct (prompt_sections cwd flag mcpHub browserSettings w)
    as [[sections|e] w0] eqn:Hsections; [exfalso | reflexivity].
  apply prompt_sections_ok in Hsections
    as (c & w1 & s & w2 & _ & _ & _ & _ & E2 & _).
  exact (fails_not_ok _ _ _ _ F E2).
Qed.

(** X4.  A configuration that is valid JSON is not enough: when the text
    of a connected server's configuration parses to [null], reading
    [config.command] throws a TypeError; with the mode not off the MCP
    servers provider fails and so does the assemble operation. *)
Theorem X4_null_config_throws mcpHub mcpMode servers server :
  returns (getMode mcpHub) mcpMode -> mcpMode <> "off" ->
  returns (getServers mcpHub) servers ->
  In server servers -> is_connected server = true ->
  JSON_parse (McpServer.config server) = Some JNull ->
  render_server server = Err TypeError /\
  fails (getMcpServersPrompt mcpHub) /\
  forall cwd supportsComputerUse browserSettings,
    fails (SYSTEM_PROMPT cwd supportsComputerUse mcpHub browserSettings).
Proof.
  intros Rmode Hmode Rservers Hin Hconnected Hparse.
  assert (E : render_server server = Err TypeError)
    by (unfold render_server; now rewrite Hparse).
  split; [exact E|].
  apply (unrenderable_server_throws mcpHub mcpMode servers server); try assumption.
  now rewrite E.
Qed.

(** X5.  The arguments of a server must be an array when they are given:
    when a connected server's configuration is an object whose [args] is
    neither [null] nor an array (a string, say), [config.args?.join] is not
    a function and the callback throws; with the mode not off the MCP
    servers provider fails and so does the assemble operation. *)
Theorem X5_args_not_an_array_throws mcpHub mcpMode servers server props args :
  returns (getMode mcpHub) mcpMode -> mcpMode <> "off" ->
  returns (getServers mcpHub) servers ->
  In server servers -> is_connected server = true ->
  JSON_parse (McpServer.config server) = Some (JObject props) ->
  own_property "args" props = Some args ->
  args <> JNull -> (forall items, args <> JArray items) ->
  is_ok (render_server server) = false /\
  fails (getMcpServersPrompt mcpHub) /\
  forall cwd supportsComputerUse browserSettings,
    fails (SYSTEM_PROMPT cwd supportsComputerUse mcpHub browserSettings).
Proof.
  intros Rmode Hmode Rservers Hin Hconnected Hparse Hargs Hnull Harray.
  assert (E : is_ok (render_server server) = false).
  { unfold render_server. rewrite Hparse. cbn [get_property rbind].
    destruct (template_value (own_property "command" props)); [|reflexivity].
    cbn [rbind]. rewrite Hargs.
    destruct args; try reflexivity; [congruence | now elim (Harray items)]. }
  split; [exact E|].
  now apply (unrenderable_server_throws mcpHub mcpMode servers server).
Qed.

(** X6.  Missing keys do not throw.  For a configuration that parses to
    anything but [null] and an object with a [command] or with [args]
    (an object without the two keys, a string, a number, a boolean, an
    array), the block of the server is rendered with the command shown
    as [undefined] and no arguments: the heading reads
    [## name (`undefined `)]. *)
Theorem X6_missing_keys_render_undefined (server : McpServer.t) (config : json) :
  JSON_parse (McpServer.config server) = Some config ->
  match config with
  | JNull => False
  | JObject props => own_property "command" props = None /\ own_property "args" props = None
  | _ => True
  end ->
  render_server server
  = Ok ("## " ++ McpServer.name server ++ " (`undefined `)" ++ nl ++ nl
        ++ "### Available Tools" ++ nl ++ tools_text (McpServer.tools server)).
Proof.
  intros Hparse Hshape. unfold render_server. rewrite Hparse.
  destruct config as [|b|shown|s|items|props]; try contradiction;
    try (cbn [get_property rbind template_value args_text]; reflexivity).
  destruct Hshape as [Hcommand Hargs].
  cbn [get_property rbind]. rewrite Hcommand, Hargs. reflexivity.
Qed.

Lemma js_or_names (names : list string) :
  js_or (join names ", ") none_running
  = match names with
    | [] => none_running
    | [name] => if name =? "" then none_running else name
    | _ :: _ :: _ => join names ", "
    end.
Proof.
  destruct names as [|x [|y names]]; [reflexivity| |].
  - rewrite join_one. now destruct x.
  - rewrite join_cons. now destruct x.
Qed.

(** X7.  The MCP creation section names the connected servers in the order
    of the registry, separated by a comma and a space.  The placeholder
    (None running currently) takes their place when no server is
    connected, and also when the one connected server has the empty
    name; two or more connected servers are always listed. *)
Theorem X7_creation_lists_connected_names mcpHub w text w' :
  getMcpCreationPrompt mcpHub w = (Ok text, w') ->
  exists mcpServersPath mcpSettingsFilePath w2 servers,
    getServers mcpHub w2 = (Ok servers, w') /\
    text = mcp_creation_text mcpServersPath mcpSettingsFilePath
             (match map McpServer.name (filter is_connected servers) with
              | [] => none_running
              | [name] => if name =? "" then none_running else name
              | names => join names ", "
              end).
Proof.
  intros Hrun.
  apply getMcpCreationPrompt_ok in Hrun as (p & w1 & q & w2 & servers & _ & _ & Eservers & ->).
  exists p, q, w2, servers. split; [exact Eservers|].
  rewrite js_or_names.
  now destruct (map McpServer.name (filter is_connected servers)) as [|x [|y names]].
Qed.

(** X8.  The first provider that fails decides the outcome of the assemble
    operation: the call fails with that provider's exception and leaves the
    world as that provider left it, the providers after it in the array
    (MCP servers, system information, MCP creation, in this order after
    capabilities) are not run. *)
Theorem X8_first_failing_provider_decides cwd supportsComputerUse mcpHub browserSettings w e w' :
  getCapabilitiesPrompt cwd supportsComputerUse mcpHub w = (Err e, w') \/
  (exists c w1,
     getCapabilitiesPrompt cwd supportsComputerUse mcpHub w = (Ok c, w1) /\
     (getMcpServersPrompt mcpHub w1 = (Err e, w') \/
      exists s w2,
        getMcpServersPrompt mcpHub w1 = (Ok s, w2) /\
        (getSystemInfoPrompt cwd w2 = (Err e, w') \/
         exists i w3,
           getSystemInfoPrompt cwd w2 = (Ok i, w3) /\
           getMcpCreationPrompt mcpHub w3 = (Err e, w')))) ->
  SYSTEM_PROMPT cwd supportsComputerUse mcpHub browserSettings w = (Err e, w').
Proof.
  intros Hfail. rewrite SYSTEM_PROMPT_joins. unfold prompt_sections, base_sections, bind.
  destruct Hfail as [E1|(c & w1 & E1 & Hfail)]; rewrite E1; [reflexivity|].
  destruct Hfail as [E2|(s & w2 & E2 & Hfail)]; rewrite E2; [reflexivity|].
  destruct Hfail as [E3|(i & w3 & E3 & E4)]; rewrite E3; [reflexivity|].
  now rewrite E4.
Qed.

(** X9.  The providers read the working directory through [toPosix] only:
    two spellings of a directory that [toPosix] maps to the same text give
    the same rules section, the same tool-use preamble and the same system
    information section. *)
Theorem X9_cwd_only_through_toPosix cwd1 cwd2 :
  toPosix cwd1 = toPosix cwd2 ->
  (forall supportsComputerUse,
     getRulesPrompt cwd1 supportsComputerUse = getRulesPrompt cwd2 supportsComputerUse) /\
  getCoreToolsPrompt cwd1 = getCoreToolsPrompt cwd2 /\
  (forall w, getSystemInfoPrompt cwd1 w = getSystemInfoPrompt cwd2 w).
Proof.
  intros E. split; [|split].
  - intros flag. unfold getRulesPrompt. now rewrite E.
  - unfold getCoreToolsPrompt. now rewrite E.
  - intros w. unfold getSystemInfoPrompt, system_info_text. now rewrite E.
Qed.

Lemma getSystemInfoPrompt_ok cwd w text w' :
  getSystemInfoPrompt cwd w = (Ok text, w') ->
  exists os w1 shell w2 home,
    osName w = (Ok os, w1) /\ getShell w1 = (Ok shell, w2) /\ os_homedir w2 = (Ok home, w') /\
    text = system_info_text os shell home cwd.
Proof.
  unfold getSystemInfoPrompt. intros Hrun.
  bind_inv Hrun. bind_inv Hrun. bind_inv Hrun. ret_inv Hrun.
  repeat eexists; eauto.
Qed.

Lemma forallb_false_at {A : Type} (p : A -> bool) (l : list A) (x : A) :
  In x l -> p x = false -> forallb p l = false.
Proof.
  intros Hin Hx. apply not_true_is_false. intros Hall.
  rewrite forallb_forall in Hall. rewrite (Hall x Hin) in Hx. discriminate.
Qed.

(** X10.  Of the four facts of the system information section, the name of
    the operating system and the default shell are shown as the system
    reports them: a backslash in either (the path of the shell on a
    Windows host) is in the text of the section. *)
Theorem X10_shell_shown_as_reported cwd w text w' :
  getSystemInfoPrompt cwd w = (Ok text, w') ->
  exists os w1 shell w2,
    osName w = (Ok os, w1) /\ getShell w1 = (Ok shell, w2) /\
    occurs_in ("Operating System: " ++ os ++ nl ++ "Default Shell: " ++ shell ++ nl) text /\
    (no_backslash os = false \/ no_backslash shell = false -> no_backslash text = false).
Proof.
  intros Hrun.
  apply getSystemInfoPrompt_ok in Hrun as (os & w1 & shell & w2 & home & E1 & E2 & _ & ->).
  exists os, w1, shell, w2. split; [exact E1|]. split; [exact E2|]. split.
  - exists (lines [""; "===="; ""; "SYSTEM INFORMATION"; ""] ++ nl).
    exists (lines ["Home Directory: " ++ toPosix home;
                   "Current Working Directory: " ++ toPosix cwd; ""]).
    unfold system_info_text, lines, join. cbn [String.concat].
    now rewrite !append_assoc.
  - intros Hraw. unfold system_info_text, lines.
    rewrite no_backslash_join by reflexivity.
    destruct Hraw as [Hos|Hshell].
    + apply (forallb_false_at _ _ ("Operating System: " ++ os)).
      * do 5 right. now left.
      * now rewrite no_backslash_append, Hos, andb_false_r.
    + apply (forallb_false_at _ _ ("Default Shell: " ++ shell)).
      * do 6 right. now left.
      * now rewrite no_backslash_append, Hshell, andb_false_r.
Qed.

(** X11.  Switching registry integration off blanks the MCP servers section
    and nothing else: the MCP creation section is rendered in full and
    still names the connected servers, and the configurations of the
    servers are not parsed. *)
Theorem X11_off_keeps_creation_section cwd supportsComputerUse mcpHub browserSettings w
    capabilities servers mcpServersPath mcpSettingsFilePath os shell home :
  returns (getCapabilitiesPrompt cwd supportsComputerUse mcpHub) capabilities ->
  returns (getMode mcpHub) "off" ->
  returns (getServers mcpHub) servers ->
  returns (getMcpServersPath mcpHub) mcpServersPath ->
  returns (getMcpSettingsFilePath mcpHub) mcpSettingsFilePath ->
  returns osName os -> returns getShell shell -> returns os_homedir home ->
  fst (SYSTEM_PROMPT cwd supportsComputerUse mcpHub browserSettings w)
  = Ok (join (section_list cwd supportsComputerUse
                (if supportsComputerUse then [getBrowserActionPrompt browserSettings] else [])
                capabilities
                ""
                (system_info_text os shell home cwd)
                (mcp_creation_text mcpServersPath mcpSettingsFilePath
                   (js_or (join (map McpServer.name (filter is_connected servers)) ", ")
                          none_running)))
             (nl ++ nl)).
Proof.
  intros Rcap Rmode Rservers Rpath Rsettings Ros Rshell Rhome.
  apply (SYSTEM_PROMPT_returns cwd supportsComputerUse mcpHub browserSettings); try assumption.
  - now apply getMcpServersPrompt_off.
  - now apply getSystemInfoPrompt_returns.
  - now apply getMcpCreationPrompt_returns.
Qed.

(** ** The resolution in the texts of the browser tool *)

Lemma number_to_string_digits (n : safe_integer) :
  string_forallb is_digit (number_to_string n) = true.
Proof.
  assert (D : forall d, string_forallb is_digit (NilEmpty.string_of_uint d) = true)
    by (induction d; simpl; auto).
  unfold number_to_string, NilZero.string_of_uint.
  destruct (N.to_uint (whole n)); [reflexivity | apply D ..].
Qed.

Lemma number_to_string_inj (n m : safe_integer) :
  number_to_string n = number_to_string m -> whole n = whole m.
Proof.
  assert (Hnil : forall k, N.to_uint k <> Decimal.Nil).
  { intros [|p]; [discriminate | apply DecimalPos.Unsigned.to_uint_nonnil]. }
  unfold number_to_string. intros E.
  apply (f_equal NilZero.uint_of_string) in E.
  rewrite !NilZero.usu in E by apply Hnil.
  injection E as E. now apply DecimalN.Unsigned.to_uint_inj.
Qed.

Lemma append_inv_head (a x y : string) : a ++ x = a ++ y -> x = y.
Proof.
  induction a as [|c a IH]; simpl; [auto|]. intros E. injection E as E. auto.
Qed.

(** A text is cut in one way only at the first character of another kind. *)
Lemma split_at_delimiter (p : ascii -> bool) (c : ascii) (a a' r r' : string) :
  string_forallb p a = true -> string_forallb p a' = true -> p c = false ->
  a ++ String c r = a' ++ String c r' -> a = a' /\ r = r'.
Proof.
  intros Ha Ha' Hc. revert a' Ha'.
  induction a as [|x a IH]; intros [|x' a'] Ha' E; simpl in *.
  - injection E as ->. auto.
  - injection E as <- _. apply andb_true_iff in Ha' as [Hx _]. congruence.
  - injection E as -> _. apply andb_true_iff in Ha as [Hx _]. congruence.
  - injection E as <- E.
    apply andb_true_iff in Ha as [_ Ha]. apply andb_true_iff in Ha' as [_ Ha'].
    destruct (IH Ha a' Ha' E) as [-> ->]. auto.
Qed.

Lemma resolution_determined (prefix : string) (v1 v2 : Viewport) (rest1 rest2 : string) :
  prefix ++ number_to_string (width v1)
         ++ String "x" (number_to_string (height v1) ++ String " " rest1)
  = prefix ++ number_to_string (width v2)
           ++ String "x" (number_to_string (height v2) ++ String " " rest2) ->
  whole (width v1) = whole (width v2) /\ whole (height v1) = whole (height v2).
Proof.
  intros E. apply append_inv_head in E.
  apply (split_at_delimiter is_digit) in E as [Ewidth E];
    [|apply number_to_string_digits..|reflexivity].
  apply (split_at_delimiter is_digit) in E as [Eheight _];
    [|apply number_to_string_digits..|reflexivity].
  apply number_to_string_inj in Ewidth, Eheight. now split.
Qed.

Lemma lines_split (l1 : list string) (x : string) (l2 : list string) :
  l1 <> [] -> l2 <> [] ->
  lines (l1 ++ x :: l2)%list = lines l1 ++ nl ++ x ++ nl ++ lines l2.
Proof.
  intros Hl1 Hl2. unfold lines. rewrite join_app by (assumption || discriminate).
  destruct l2 as [|y l2]; [congruence|]. now rewrite join_cons.
Qed.

(** The text up to the width, the width, an x, the height, a space, the rest. *)
Ltac resolution_shape n :=
  match goal with
  | |- lines ?L = _ =>
      change L with (firstn n L ++ nth n L "" :: skipn (S n) L)%list
  end;
  rewrite lines_split by discriminate;
  cbn [nth firstn skipn];
  rewrite !append_assoc;
  do 2 rewrite <- append_assoc;
  match goal with
  | |- ?a ++ ?b = ?c ++ ?d =>
      replace c with a by (vm_compute; reflexivity); apply (f_equal (append a))
  end;
  apply (f_equal (append _)); reflexivity.

Lemma browser_action_shape :
  exists prefix, forall browserSettings, exists rest,
    getBrowserActionPrompt browserSettings
    = prefix ++ number_to_string (width (viewport browserSettings))
             ++ String "x" (number_to_string (height (viewport browserSettings))
                            ++ String " " rest).
Proof.
  exists (substring 0 915
            (getBrowserActionPrompt {| viewport := {| width := {| whole := 0; whole_safe := eq_refl |};
                                height := {| whole := 0; whole_safe := eq_refl |} |} |})).
  intros browserSettings. eexists.
  unfold getBrowserActionPrompt at 1. resolution_shape 5.
Qed.

Lemma browser_tools_shape :
  exists prefix, forall browserSettings, exists rest,
    getBrowserToolsPrompt browserSettings
    = prefix ++ number_to_string (width (viewport browserSettings))
             ++ String "x" (number_to_string (height (viewport browserSettings))
                            ++ String " " rest).
Proof.
  exists (substring 0 231
            (getBrowserToolsPrompt {| viewport := {| width := {| whole := 0; whole_safe := eq_refl |};
                                height := {| whole := 0; whole_safe := eq_refl |} |} |})).
  intros browserSettings. eexists.
  unfold getBrowserToolsPrompt at 1. resolution_shape 3.
Qed.

(** X12.  The two descriptions of the browser tool determine the viewport
    they were rendered for.  For sizes that are whole numbers below 2^53,
    which JavaScript prints with all their digits, width and height stand
    in decimal between the words of the sentence on the resolution, so two
    settings give the same text only if they have the same width and the
    same height. *)
Theorem X12_browser_texts_determine_viewport (settings1 settings2 : BrowserSettings) :
  (getBrowserActionPrompt settings1 = getBrowserActionPrompt settings2 ->
   whole (width (viewport settings1)) = whole (width (viewport settings2)) /\
   whole (height (viewport settings1)) = whole (height (viewport settings2))) /\
  (getBrowserToolsPrompt settings1 = getBrowserToolsPrompt settings2 ->
   whole (width (viewport settings1)) = whole (width (viewport settings2)) /\
   whole (height (viewport settings1)) = whole (height (viewport settings2))).
Proof.
  split; intros E.
  - destruct browser_action_shape as (prefix & Hshape).
    destruct (Hshape settings1) as (rest1 & E1), (Hshape settings2) as (rest2 & E2).
    rewrite E1, E2 in E. exact (resolution_determined _ _ _ _ _ E).
  - destruct browser_tools_shape as (prefix & Hshape).
    destruct (Hshape settings1) as (rest1 & E1), (Hshape settings2) as (rest2 & E2).
    rewrite E1, E2 in E. exact (resolution_determined _ _ _ _ _ E).
Qed.

Lemma map_result_all_ok {A B : Type} (f : A -> result B) (l : list A) :
  Forall (fun x => is_ok (f x) = true) l -> is_ok (map_result f l) = true.
Proof.
  induction 1 as [|x l Hx _ IH]; [reflexivity|]. simpl.
  destruct (f x); [|discriminate]. simpl.
  destruct (map_result f l); [reflexivity | discriminate].
Qed.

(** The block of a server whose configuration is an object with a string
    command and an array of strings for its arguments. *)
Lemma render_server_plain (server : McpServer.t) props command argv :
  JSON_parse (McpServer.config server) = Some (JObject props) ->
  own_property "command" props = Some (JString command) ->
  own_property "args" props = Some (JArray (map JString argv)) ->
  render_server server
  = Ok (server_block (McpServer.name server) command (join argv " ")
          (tools_text (McpServer.tools server))).
Proof.
  intros Hparse Hcommand Hargs. unfold render_server. rewrite Hparse.
  cbn [get_property rbind]. rewrite Hcommand, Hargs.
  cbn [template_value ToString rbind args_text].
  rewrite array_join_strings. cbn [rbind]. now rewrite js_or_same.
Qed.

(** X13.  The MCP servers provider returns its section whenever the hub
    answers and every connected server has a plain configuration: JSON for
    an object with a string [command] and an array of strings [args].
    Each such server is shown as the command of its configuration
    followed by the arguments of its configuration, separated by spaces.
    The configurations of servers that are not connected are not looked
    at. *)
Theorem X13_plain_configs_render mcpHub mcpMode servers w :
  returns (getMode mcpHub) mcpMode -> mcpMode <> "off" ->
  returns (getServers mcpHub) servers ->
  (forall server, In server servers -> is_connected server = true ->
     exists props command argv,
       JSON_parse (McpServer.config server) = Some (JObject props) /\
       own_property "command" props = Some (JString command) /\
       own_property "args" props = Some (JArray (map JString argv))) ->
  exists blocks,
    fst (getMcpServersPrompt mcpHub w)
      = Ok (mcp_servers_text (js_or (join blocks (nl ++ nl)) no_servers_connected)) /\
    Forall2 (fun server block =>
               forall props command argv,
                 JSON_parse (McpServer.config server) = Some (JObject props) ->
                 own_property "command" props = Some (JString command) ->
                 own_property "args" props = Some (JArray (map JString argv)) ->
                 block = "## " ++ McpServer.name server ++ " (`" ++ command ++ " "
                         ++ join argv " " ++ "`)" ++ nl ++ nl ++ "### Available Tools" ++ nl
                         ++ tools_text (McpServer.tools server))
            (filter is_connected servers) blocks.
Proof.
  intros Rmode Hmode Rservers Hplain.
  assert (Hok : is_ok (map_result render_server (filter is_connected servers)) = true).
  { apply map_result_all_ok. rewrite Forall_forall. intros server Hs.
    apply filter_In in Hs as [Hin Hc].
    destruct (Hplain server Hin Hc) as (props & command & argv & Hp & Hcmd & Hargs).
    now rewrite (render_server_plain server props command argv Hp Hcmd Hargs). }
  destruct (map_result render_server (filter is_connected servers)) as [blocks|] eqn:Eblocks;
    [|discriminate].
  exists blocks. split.
  - exact (getMcpServersPrompt_returns mcpHub mcpMode servers blocks
             Rmode Hmode Rservers Eblocks w).
  - apply map_result_Forall2 in Eblocks.
    eapply Forall2_impl; [|exact Eblocks].
    intros server block Hblock props command argv Hp Hcmd Hargs. cbv beta in Hblock.
    rewrite (render_server_plain server props command argv Hp Hcmd Hargs) in Hblock.
    now injection Hblock as <-.
Qed.

End More.

(** * The claims on the sample world *)

Import Sample.

(** C1 at the sample registry with one connected server, automation on. *)
Lemma C1_witness :
  exists sections w',
    prompt_sections "C:\work" true hub browserSettings one_server = (Ok sections, w') /\
    SYSTEM_PROMPT "C:\work" true hub browserSettings one_server
      = (Ok (join sections (nl ++ nl)), w') /\
    length sections = 23.
Proof.
  destruct (prompt_sections "C:\work" true hub browserSettings one_server)
    as [[sections|e] w'] eqn:Hrun; [|vm_compute in Hrun; discriminate].
  exists sections, w'. split; [reflexivity|].
  destruct (C1_section_order _ _ _ _ _ _ _ Hrun)
    as (Hdoc & c & s & i & m & w1 & w2 & _ & _ & (Hlen & _) & _).
  split; [exact Hdoc | exact Hlen].
Defined.

(** C2 as stated fails: with the automation flag toggled on the sample
    registry, the array with the flag set is not the array with the flag
    unset plus the browser_action entry, because the rules section (index
    21 against index 20) has another text. *)
Lemma C2_counterexample :
  exists sectionsOn sectionsOff,
    fst (prompt_sections "C:\work" true hub browserSettings one_server) = Ok sectionsOn /\
    fst (prompt_sections "C:\work" false hub browserSettings one_server) = Ok sectionsOff /\
    sectionsOn <> splice sectionsOff 3 0 [getBrowserActionPrompt browserSettings] /\
    nth_error sectionsOn 21 = Some (getRulesPrompt "C:\work" true) /\
    nth_error sectionsOff 20 = Some (getRulesPrompt "C:\work" false) /\
    getRulesPrompt "C:\work" true <> getRulesPrompt "C:\work" false.
Proof.
  eexists. eexists.
  split; [vm_compute; reflexivity|]. split; [vm_compute; reflexivity|].
  split; [|split; [vm_compute; reflexivity|split; [vm_compute; reflexivity|]]].
  - intros E.
    apply (f_equal (fun l => option_map String.length (nth_error l 21))) in E.
    vm_compute in E. discriminate E.
  - intros E. apply (f_equal String.length) in E. vm_compute in E. discriminate E.
Qed.

Lemma C2_witness :
  exists sectionsOn wOn sectionsOff wOff,
    prompt_sections "C:\work" true hub browserSettings one_server = (Ok sectionsOn, wOn) /\
    prompt_sections "C:\work" false hub browserSettings one_server = (Ok sectionsOff, wOff) /\
    length sectionsOn = S (length sectionsOff) /\
    nth_error (splice sectionsOn 3 1 []) 20 = Some (getRulesPrompt "C:\work" true) /\
    nth_error sectionsOff 20 = Some (getRulesPrompt "C:\work" false) /\
    wOn = wOff.
Proof.
  destruct (prompt_sections "C:\work" true hub browserSettings one_server)
    as [[sectionsOn|e] wOn] eqn:Hon; [|vm_compute in Hon; discriminate].
  destruct (prompt_sections "C:\work" false hub browserSettings one_server)
    as [[sectionsOff|e] wOff] eqn:Hoff; [|vm_compute in Hoff; discriminate].
  exists sectionsOn, wOn, sectionsOff, wOff.
  split; [reflexivity|]. split; [reflexivity|].
  assert (Hcap : snd (getCapabilitiesPrompt "C:\work" true hub one_server)
                 = snd (getCapabilitiesPrompt "C:\work" false hub one_server))
    by reflexivity.
  destruct (C2_flag_changes_rules_too "C:\work" hub browserSettings one_server
              _ _ _ _ Hcap Hon Hoff)
    as (_ & Hlen & _ & Hrules & Hrules' & _ & Hw).
  repeat split; assumption.
Defined.

(** C3 as stated fails: with registry integration off the array holds an
    empty entry, the document is not the join of the non-empty entries,
    and it has the doubled separator between the editing section and the
    system information section that skipping the entry would avoid. *)
Lemma C3_counterexample :
  exists sections document,
    fst (prompt_sections "C:\work" false hub browserSettings integration_off) = Ok sections /\
    fst (SYSTEM_PROMPT "C:\work" false hub browserSettings integration_off) = Ok document /\
    nth_error sections 17 = Some "" /\
    document <> spec_join_sections sections /\
    includes document
      (getEditingPrompt ++ (nl ++ nl) ++ (nl ++ nl) ++ nl ++ "====" ++ nl ++ nl
       ++ "SYSTEM INFORMATION") = true /\
    includes (spec_join_sections sections)
      (getEditingPrompt ++ (nl ++ nl) ++ (nl ++ nl) ++ nl ++ "====" ++ nl ++ nl
       ++ "SYSTEM INFORMATION") = false.
Proof.
  eexists. eexists.
  split; [vm_compute; reflexivity|]. split; [vm_compute; reflexivity|].
  split; [reflexivity|]. split; [|split; vm_compute; reflexivity].
  intros E. apply (f_equal String.length) in E. vm_compute in E. discriminate E.
Qed.

Lemma C3_witness :
  returns (getMode (frozen integration_off)) "off" /\
  exists document sections systemInfo,
    fst (SYSTEM_PROMPT "C:\work" true (frozen integration_off) browserSettings one_server)
      = Ok document /\
    document = join sections (nl ++ nl) /\
    nth_error sections 18 = Some "" /\
    occurs_in (getEditingPrompt ++ (nl ++ nl) ++ (nl ++ nl) ++ systemInfo) document.
Proof.
  assert (Roff : returns (getMode (frozen integration_off)) "off") by (intros w; reflexivity).
  split; [exact Roff|].
  destruct (SYSTEM_PROMPT "C:\work" true (frozen integration_off) browserSettings one_server)
    as [[document|e] w'] eqn:Hrun; [|vm_compute in Hrun; discriminate].
  destruct (C3_empty_section_keeps_its_separators _ _ _ _ _ _ _ Roff Hrun)
    as (sections & systemInfo & _ & Hdoc & _ & _ & Hempty & _ & Hocc).
  exists document, sections, systemInfo. repeat split; assumption.
Defined.

(** C4 as stated fails: with the registry out of reach the assemble
    operation returns no document, it rejects with the registry's error. *)
Lemma C4_counterexample :
  fails (getMode (frozen unreachable)) /\
  fst (SYSTEM_PROMPT "C:\work" false (frozen unreachable) browserSettings unreachable)
    = Err (Rejected "RegistryUnavailable") /\
  fst (SYSTEM_PROMPT "C:\work" false hub browserSettings unreachable)
    = Err (Rejected "RegistryUnavailable").
Proof.
  split; [intros w; reflexivity|]. split; vm_compute; reflexivity.
Qed.

Lemma C4_witness :
  fails (getMcpServersPath (frozen unreachable)) /\
  is_ok (fst (SYSTEM_PROMPT "C:\work" true (frozen unreachable) browserSettings one_server))
    = false.
Proof.
  assert (F : fails (getMcpServersPath (frozen unreachable))) by (intros w; reflexivity).
  split; [exact F|].
  apply C4_registry_failure_propagates. right. right. left. exact F.
Defined.

(** C5 fails on the code: on a Windows host the registry reports its
    install directory with backslashes and the MCP creation section
    shows it as it comes, while the working directory and the home
    directory are shown in forward-slash form. *)
Theorem C5_registry_paths_keep_backslashes :
  exists document,
    fst (SYSTEM_PROMPT "C:\work" false hub browserSettings windows_host) = Ok document /\
    no_backslash document = false /\
    includes document
      "new MCP servers should be created in: C:\Users\dev\Documents\Cline\MCP" = true /\
    includes document
      "Add to the MCP settings file at 'C:\Users\dev\AppData\cline_mcp_settings.json'" = true /\
    includes document "Home Directory: C:/Users/dev" = true /\
    includes document "Current Working Directory: C:/work" = true.
Proof.
  eexists. split; [vm_compute; reflexivity|]. repeat split; vm_compute; reflexivity.
Qed.

(** C6 at the sample registry: putting a failed server with a malformed
    configuration in front of the list changes neither section, nor the
    document. *)
Lemma C6_witness :
  (forall l, filter is_connected (gamma :: l) = filter is_connected l) /\
  getMcpServersPrompt (with_servers (cons gamma) hub) one_server
    = getMcpServersPrompt hub one_server /\
  getMcpCreationPrompt (with_servers (cons gamma) hub) one_server
    = getMcpCreationPrompt hub one_server /\
  SYSTEM_PROMPT "C:\work" true (with_servers (cons gamma) hub) browserSettings one_server
    = SYSTEM_PROMPT "C:\work" true hub browserSettings one_server.
Proof.
  assert (Hg : forall l, filter is_connected (gamma :: l) = filter is_connected l)
    by (intros l; reflexivity).
  split; [exact Hg|].
  destruct (C6_only_connected_servers_rendered hub (cons gamma) one_server Hg)
    as (Hservers & Hcreation & Hdocument).
  split; [exact Hservers|]. split; [exact Hcreation|].
  apply Hdocument. intros w0. reflexivity.
Defined.



(** C8 as stated fails: the scenario says nothing of the configuration of
    alpha, and with one that is not JSON the call returns no document. *)
Lemma C8_counterexample :
  Sample.servers (Scenario.registry "{not json") = [Scenario.alpha "{not json"] /\
  is_connected (Scenario.alpha "{not json") = true /\
  McpServer.tools (Scenario.alpha "{not json")
    = Some [McpTool.mk "fetch" "retrieves a URL"] /\
  fst (getMode hub (Scenario.registry "{not json")) = Ok "full" /\
  fst (SYSTEM_PROMPT "C:\work" false hub browserSettings (Scenario.registry "{not json"))
    = Err SyntaxError.
Proof.
  repeat split; vm_compute; reflexivity.
Qed.

(** C8 with alpha the one connected server among three, its configuration
    carrying an environment too. *)
Lemma C8_witness :
  command_text Scenario.env_json = Ok "node" /\
  arguments_text Scenario.env_json = Ok "alpha.js --port 8080" /\
  exists document,
    fst (SYSTEM_PROMPT (H := Scenario.parser) "C:\work" false
           (frozen (Scenario.crowded Scenario.env_config))
           browserSettings one_server)
      = Ok document /\
    includes document
      ("## alpha (`node alpha.js --port 8080`)" ++ nl ++ nl ++ "### Available Tools" ++ nl
       ++ "- fetch: retrieves a URL" ++ nl ++ nl ++ "- MCP operations") = true /\
    includes document "## browser_action" = false /\
    includes document "beta" = false /\
    includes document "gamma" = false.
Proof.
  split; [reflexivity|]. split; [reflexivity|].
  eexists. split.
  - apply (@C8_alpha_listed World Scenario.parser windows static_sections "C:\work"
             (frozen (Scenario.crowded Scenario.env_config))
             browserSettings one_server "full"
             [gamma; Scenario.alpha Scenario.env_config; beta]
             Scenario.env_config Scenario.env_json "node" "alpha.js --port 8080");
      try (intros w; reflexivity); try reflexivity.
    discriminate.
  - repeat split; vm_compute; reflexivity.
Defined.


(** A working directory that is the empty string is handed on like any
    other: the document is assembled around it. *)
Lemma empty_cwd_accepted :
  exists document,
    fst (SYSTEM_PROMPT "" false hub browserSettings one_server) = Ok document /\
    includes document ("Current Working Directory: " ++ nl) = true /\
    includes document ("- Your current working directory is: " ++ nl) = true.
Proof.
  eexists. split; [vm_compute; reflexivity|]. split; vm_compute; reflexivity.
Qed.

(** C10 as stated fails: with registry integration off a connected server
    whose configuration is not JSON makes nothing throw; the MCP servers
    section is empty and the document is assembled. *)
Lemma C10_counterexample :
  In broken (servers off_with_broken_config) /\
  is_connected broken = true /\
  JSON_parse (McpServer.config broken) = None /\
  fst (getMcpServersPrompt hub off_with_broken_config) = Ok "" /\
  is_ok (fst (SYSTEM_PROMPT "C:\work" false hub browserSettings off_with_broken_config)) = true.
Proof.
  split; [now left|]. repeat split; vm_compute; reflexivity.
Qed.

Lemma C10_witness :
  In broken [alpha; broken] /\
  is_ok (fst (getMcpServersPrompt
                (frozen {| reachable := true; mode := "full"; servers := [alpha; broken];
                           serversPath := "/srv/mcp"; settingsFilePath := "/srv/settings.json" |})
                one_server)) = false.
Proof.
  split; [right; now left|].
  eapply (C10_malformed_config_throws _ "full" [alpha; broken] broken).
  - intros w; reflexivity.
  - discriminate.
  - intros w; reflexivity.
  - right; now left.
  - reflexivity.
  - reflexivity.
Defined.

(** * The further properties on the sample world *)

Lemma X1_witness :
  exists text w',
    getMcpServersPrompt hub integration_off = (Ok text, w') /\
    exists mcpMode w1,
      getMode hub integration_off = (Ok mcpMode, w1) /\
      (text = "" <-> mcpMode = "off") /\
      (mcpMode = "off" -> w' = w1).
Proof.
  destruct (getMcpServersPrompt hub integration_off) as [[text|e] w'] eqn:Hrun;
    [|vm_compute in Hrun; discriminate].
  exists text, w'. split; [reflexivity|].
  exact (X1_servers_section_empty_iff_off hub integration_off text w' Hrun).
Defined.

Lemma X2_witness :
  exists text w' servers blocks,
    getMcpServersPrompt hub mixed = (Ok text, w') /\
    getServers hub mixed = (Ok servers, w') /\
    length blocks = length (filter is_connected servers) /\
    text = mcp_servers_text
             (match blocks with
              | [] => no_servers_connected
              | _ :: _ => join blocks (nl ++ nl)
              end).
Proof.
  destruct (getMcpServersPrompt hub mixed) as [[text|e] w'] eqn:Hrun;
    [|vm_compute in Hrun; discriminate].
  assert (Emode : getMode hub mixed = (Ok "full", mixed)) by reflexivity.
  assert (Hmode : "full" <> "off") by discriminate.
  destruct (X2_servers_section_blocks hub mixed "full" mixed text w' Emode Hmode Hrun)
    as (servers & blocks & Eservers & Hblocks & Htext & _).
  exists text, w', servers, blocks. split; [reflexivity|]. split; [exact Eservers|].
  split; [symmetry; exact (Forall2_length Hblocks) | exact Htext].
Defined.

Lemma X3_witness :
  getMcpServersPrompt hub (Cases.registry [alpha; broken; Cases.nothing])
  = (Err SyntaxError, Cases.registry [alpha; broken; Cases.nothing]).
Proof.
  eapply (X3_first_failing_server_decides hub _ "full" _ _ _ [alpha] broken [Cases.nothing]).
  - reflexivity.
  - discriminate.
  - reflexivity.
  - reflexivity.
  - reflexivity.
  - reflexivity.
Defined.

Lemma X4_witness :
  JSON_parse (JsonParser := Cases.parser) (McpServer.config Cases.nothing) = Some JNull /\
  render_server (H := Cases.parser) Cases.nothing = Err TypeError /\
  fails (getMcpServersPrompt (H := Cases.parser)
           (frozen (Cases.registry [alpha; Cases.nothing]))).
Proof.
  split; [reflexivity|].
  destruct (@X4_null_config_throws World Cases.parser windows static_sections
              (frozen (Cases.registry [alpha; Cases.nothing])) "full"
              [alpha; Cases.nothing] Cases.nothing)
    as (Hrender & Hsection & _).
  - intros w; reflexivity.
  - discriminate.
  - intros w; reflexivity.
  - right; now left.
  - reflexivity.
  - reflexivity.
  - split; [exact Hrender | exact Hsection].
Defined.

Lemma X5_witness :
  is_ok (render_server (H := Cases.parser) Cases.string_args) = false /\
  fails (getMcpServersPrompt (H := Cases.parser)
           (frozen (Cases.registry [Cases.string_args; alpha]))).
Proof.
  destruct (@X5_args_not_an_array_throws World Cases.parser windows static_sections
              (frozen (Cases.registry [Cases.string_args; alpha])) "full"
              [Cases.string_args; alpha] Cases.string_args
              [("command", JString "node"); ("args", JString "alpha.js")]
              (JString "alpha.js"))
    as (Hrender & Hsection & _).
  - intros w; reflexivity.
  - discriminate.
  - intros w; reflexivity.
  - now left.
  - reflexivity.
  - reflexivity.
  - reflexivity.
  - discriminate.
  - discriminate.
  - split; [exact Hrender | exact Hsection].
Defined.

Lemma X6_witness :
  render_server (H := Cases.parser) Cases.bare
  = Ok ("## bare (`undefined `)" ++ nl ++ nl ++ "### Available Tools" ++ nl
        ++ "- fetch: retrieves a URL").
Proof.
  exact (@X6_missing_keys_render_undefined Cases.parser Cases.bare (JObject [])
           eq_refl (conj eq_refl eq_refl)).
Defined.

Lemma X7_witness :
  exists text w' mcpServersPath mcpSettingsFilePath,
    getMcpCreationPrompt (frozen mixed) one_server = (Ok text, w') /\
    text = mcp_creation_text mcpServersPath mcpSettingsFilePath "alpha".
Proof.
  destruct (getMcpCreationPrompt (frozen mixed) one_server) as [[text|e] w'] eqn:Hrun;
    [|vm_compute in Hrun; discriminate].
  destruct (X7_creation_lists_connected_names (frozen mixed) one_server text w' Hrun)
    as (p & q & w2 & servers & Eservers & Htext).
  exists text, w', p, q. split; [reflexivity|].
  injection Eservers as <- _. exact Htext.
Defined.

Lemma X8_witness :
  SYSTEM_PROMPT "C:\work" true hub browserSettings unreachable
  = (Err (Rejected "RegistryUnavailable"), unreachable).
Proof.
  apply X8_first_failing_provider_decides.
  right. exists "CAPABILITIES", unreachable. split; [reflexivity|].
  left. reflexivity.
Defined.

Lemma X9_witness :
  toPosix "C:\work" = toPosix "C:/work" /\
  getRulesPrompt "C:\work" true = getRulesPrompt "C:/work" true /\
  getCoreToolsPrompt "C:\work" = getCoreToolsPrompt "C:/work".
Proof.
  assert (E : toPosix "C:\work" = toPosix "C:/work") by reflexivity.
  split; [exact E|].
  destruct (@X9_cwd_only_through_toPosix World windows "C:\work" "C:/work" E)
    as (Hrules & Htools & _).
  split; [apply Hrules | exact Htools].
Defined.

Lemma X10_witness :
  exists text w',
    getSystemInfoPrompt (H0 := Cases.shell_path) "C:\work" one_server = (Ok text, w') /\
    no_backslash text = false.
Proof.
  destruct (getSystemInfoPrompt (H0 := Cases.shell_path) "C:\work" one_server)
    as [[text|e] w'] eqn:Hrun; [|vm_compute in Hrun; discriminate].
  exists text, w'. split; [reflexivity|].
  destruct (@X10_shell_shown_as_reported World Cases.shell_path "C:\work" one_server
              text w' Hrun)
    as (os & w1 & shell & w2 & Eos & Eshell & _ & Hraw).
  apply Hraw. right. injection Eos as _ <-. now injection Eshell as <- _.
Defined.

Lemma X11_witness :
  exists document,
    fst (SYSTEM_PROMPT "C:\work" false (frozen integration_off) browserSettings one_server)
      = Ok document /\
    includes document "existing MCP server (e.g., alpha)" = true /\
    includes document "MCP SERVERS" = false.
Proof.
  eexists. split.
  - apply (X11_off_keeps_creation_section "C:\work" false (frozen integration_off));
      intros w; reflexivity.
  - split; vm_compute; reflexivity.
Defined.

Lemma X13_witness :
  exists blocks,
    fst (getMcpServersPrompt (frozen mixed) one_server)
      = Ok (mcp_servers_text (js_or (join blocks (nl ++ nl)) no_servers_connected)) /\
    blocks = ["## alpha (`node alpha.js`)" ++ nl ++ nl ++ "### Available Tools" ++ nl
              ++ "- fetch: retrieves a URL"].
Proof.
  destruct (X13_plain_configs_render (frozen mixed) "full" [gamma; alpha; beta] one_server)
    as (blocks & Htext & Hblocks).
  - intros w; reflexivity.
  - discriminate.
  - intros w; reflexivity.
  - intros server [<-|[<-|[<-|[]]]] Hc; try discriminate Hc.
    exists [("command", JString "node"); ("args", JArray [JString "alpha.js"])],
           "node", ["alpha.js"].
    repeat split.
  - exists blocks. split; [exact Htext|].
    change (filter is_connected [gamma; alpha; beta]) with [alpha] in Hblocks.
    inversion Hblocks as [|server block l rest Hblock Hrest]; subst.
    inversion Hrest; subst.
    now rewrite (Hblock _ "node" ["alpha.js"] eq_refl eq_refl eq_refl).
Defined.
